(** * AosUnit protocol messages: schema embedding and checked properties

    The repository declares its wire messages as pydantic models:
    [cloud_common/protocols/unit/desired_status.py], [state.py] and
    [header.py].  The modules import [field_serializer] and [Base64Bytes],
    which only pydantic v2 has, so v2 is the semantics of the declarations.
    A model class is a list of annotated fields; decoding a parsed JSON
    object against the class looks every field up under its alias,
    validates the value against the annotation, falls back to the declared
    default when the key is absent, and reports all field errors together.

    This file embeds those declarations as decoders over parsed JSON
    values.  Each decoder is written field by field, in declaration order,
    in an error-accumulating applicative, so that it reads like the class
    it embeds. *)

From Stdlib Require Import ZArith List String Ascii Bool Lia PrimFloat.
From Stdlib Require Import Strings.Byte.
From Stdlib Require Floats.FloatOps.
Import ListNotations.

Set Warnings "-register-all".

Open Scope string_scope.
Open Scope Z_scope.

(* ================================================================== *)
(** * Parsed JSON input *)
(* ================================================================== *)

(** A JSON document after parsing.  Integer literals are integers of
    arbitrary precision, other numbers are binary64 floats.  A string is the
    sequence of its characters.  An object is kept as the list of its
    members in the order they were written and is read with [lookup]. *)
Inductive json : Type :=
| JNull
| JBool (b : bool)
| JInt (z : Z)
| JFloat (f : float)
| JStr (s : string)
| JArr (items : list json)
| JObj (members : list (string * json)).

Definition dict : Type := list (string * json).

(** A key written twice keeps its last value, as in the [dict] that
    [json.loads] builds. *)
Fixpoint lookup (k : string) (d : dict) : option json :=
  match d with
  | [] => None
  | (k', v) :: d' =>
      match lookup k d' with
      | Some w => Some w
      | None => if String.eqb k k' then Some v else None
      end
  end.

Definition bytes : Type := list byte.

(* ================================================================== *)
(** * Validation errors and results *)
(* ================================================================== *)

(** One entry of a pydantic [ValidationError]: the location of the
    offending value (keys and list indexes from the root) and the error
    type. *)
Inductive loc_item : Type :=
| LKey (k : string)
| LIdx (i : nat).

Record error : Type := mkError { loc : list loc_item; kind : string }.

Definition err (k : string) : error := mkError [] k.

Definition push_loc (l : loc_item) (e : error) : error :=
  mkError (l :: loc e) (kind e).

Inductive result (A : Type) : Type :=
| Ok (a : A)
| Err (es : list error).

Arguments Ok {A} a.
Arguments Err {A} es.

Definition is_ok {A} (r : result A) : bool :=
  match r with Ok _ => true | Err _ => false end.

Definition errors {A} (r : result A) : list error :=
  match r with Ok _ => [] | Err es => es end.

Definition fail {A} (k : string) : result A := Err [err k].

Definition rmap {A B} (f : A -> B) (r : result A) : result B :=
  match r with Ok a => Ok (f a) | Err es => Err es end.

(** Fields are validated independently and every error is kept. *)
Definition ap {A B} (rf : result (A -> B)) (ra : result A) : result B :=
  match rf, ra with
  | Ok f, Ok a => Ok (f a)
  | Ok _, Err es => Err es
  | Err es, Ok _ => Err es
  | Err es1, Err es2 => Err (es1 ++ es2)
  end.

(** A validator that stops at its first error. *)
Definition bind {A B} (r : result A) (k : A -> result B) : result B :=
  match r with Ok a => k a | Err es => Err es end.

Definition at_loc {A} (l : loc_item) (r : result A) : result A :=
  match r with Ok a => Ok a | Err es => Err (map (push_loc l) es) end.

Declare Scope result_scope.
Delimit Scope result_scope with result.
Notation "f <$> r" := (rmap f r) (at level 61, left associativity) : result_scope.
Notation "rf <*> ra" := (ap rf ra) (at level 61, left associativity) : result_scope.
Notation "x <- r ;; k" := (bind r (fun x => k))
  (at level 100, r at next level, right associativity) : result_scope.
Open Scope result_scope.

(* ================================================================== *)
(** * Library validators *)
(* ================================================================== *)

(** What pydantic does with inputs of the wrong JSON type in lax mode
    (a boolean, digits in a string, a float with no fractional part where an
    [int] is declared), and how it parses dates, times and base64 text, is
    the library's business; the message declarations never depend on it.
    These conversions are taken as given. *)
Class Library : Type := {
  bool_as_int : bool -> option Z;
  str_as_int : string -> option Z;
  float_as_int : float -> option Z;
  datetime : Type;
  validate_datetime : json -> result datetime;
  time : Type;
  validate_time : json -> result time;
  (** [Base64Bytes]: validation and JSON-mode serialization. *)
  validate_Base64Bytes : json -> result bytes;
  dump_Base64Bytes : bytes -> json;
  (** [repr] of a [str] and of a [bytes] object. *)
  repr_str : string -> string;
  repr_bytes : bytes -> string
}.

Section Validators.
Context {lib : Library}.

(** [int]: an integer literal is taken as it is; lax mode may convert a
    boolean, a float or a string. *)
Definition validate_int (v : json) : result Z :=
  match v with
  | JInt z => Ok z
  | JBool b =>
      match bool_as_int b with Some z => Ok z | None => fail "int_type" end
  | JFloat f =>
      match float_as_int f with Some z => Ok z | None => fail "int_from_float" end
  | JStr s =>
      match str_as_int s with Some z => Ok z | None => fail "int_parsing" end
  | _ => fail "int_type"
  end.

(** Numeric bounds of [Field(ge=, gt=, lt=)].  A value breaks at most one
    of the bounds declared together here, so the order in which they are
    checked does not show in the result. *)
Definition check_lt (bound : Z) (z : Z) : result Z :=
  if z <? bound then Ok z else fail "less_than".

Definition check_ge (bound : Z) (z : Z) : result Z :=
  if bound <=? z then Ok z else fail "greater_than_equal".

Definition check_gt (bound : Z) (z : Z) : result Z :=
  if bound <? z then Ok z else fail "greater_than".

(** [str]: only a JSON string. *)
Definition validate_str (v : json) : result string :=
  match v with
  | JStr s => Ok s
  | _ => fail "string_type"
  end.

Definition check_str_length (min_length : nat) (max_length : option nat)
    (s : string) : result string :=
  if (String.length s <? min_length)%nat then fail "string_too_short"
  else match max_length with
       | Some m => if (m <? String.length s)%nat then fail "string_too_long" else Ok s
       | None => Ok s
       end.

(** [Literal[...]] of strings: the input must be a string equal to one of
    the members. *)
Definition validate_literal (members : list string) (v : json) : result string :=
  match v with
  | JStr s => if existsb (String.eqb s) members then Ok s else fail "literal_error"
  | _ => fail "literal_error"
  end.

(** The integers the validation core holds in a machine word. *)
Definition in_int64 (z : Z) : bool :=
  (- 2 ^ 63 <=? z) && (z <=? 2 ^ 63 - 1).

(** The integer a float stands for, when it is finite and has no
    fractional part: a binary64 float is a sign, a mantissa and an exponent
    of two. *)
Definition float_integer (f : float) : option Z :=
  match FloatOps.Prim2SF f with
  | SpecFloat.S754_zero _ => Some 0
  | SpecFloat.S754_finite s m e =>
      let sign := if s then (-1) else 1 in
      if 0 <=? e then Some (sign * (Z.pos m * 2 ^ e))
      else if Z.pos m mod 2 ^ (- e) =? 0
           then Some (sign * (Z.pos m / 2 ^ (- e)))
           else None
  | _ => None
  end.

(** Python's [==] between a parsed JSON value and an integer: numbers
    compare by value, a boolean counts as 0 or 1, nothing else is equal to
    an integer. *)
Definition equals_int (v : json) (n : Z) : bool :=
  match v with
  | JInt z => z =? n
  | JFloat f =>
      match float_integer f with Some z => z =? n | None => false end
  | JBool b => Z.b2z b =? n
  | _ => false
  end.

(** [Literal[n]] of an integer.  An integer input is looked up as a machine
    word, and one that does not fit is refused as such; any other input
    that is not the literal falls back on a lookup by Python equality, which
    a float of the same value passes.  The decoded value is the literal
    itself. *)
Definition validate_literal_int (n : Z) (v : json) : result Z :=
  match v with
  | JInt z =>
      if in_int64 z then
        if z =? n then Ok n else fail "literal_error"
      else fail "int_parsing_size"
  | _ => if equals_int v n then Ok n else fail "literal_error"
  end.

(** [list[T]]: every item is validated, errors are located by index; the
    length bound is checked once all items are valid. *)
Fixpoint validate_items {A} (item : json -> result A) (i : nat)
    (vs : list json) : result (list A) :=
  match vs with
  | [] => Ok []
  | v :: vs' => cons <$> at_loc (LIdx i) (item v) <*> validate_items item (S i) vs'
  end.

Definition validate_list {A} (min_length : nat) (item : json -> result A)
    (v : json) : result (list A) :=
  match v with
  | JArr vs =>
      out <- validate_items item 0 vs ;;
      if (List.length out <? min_length)%nat then fail "too_short" else Ok out
  | _ => fail "list_type"
  end.

(** A model is decoded from an object. *)
Definition as_dict (v : json) : result dict :=
  match v with
  | JObj d => Ok d
  | _ => fail "model_type"
  end.

(** A field without default: the key must be present. *)
Definition required {A} (alias : string) (val : json -> result A)
    (d : dict) : result A :=
  match lookup alias d with
  | Some v => at_loc (LKey alias) (val v)
  | None => Err [mkError [LKey alias] "missing"]
  end.

(** A field with [default=]: the default stands for an absent key and is
    not validated; a present value is validated against the annotation. *)
Definition with_default {A} (alias : string) (default : A)
    (val : json -> result A) (d : dict) : result A :=
  match lookup alias d with
  | Some v => at_loc (LKey alias) (val v)
  | None => Ok default
  end.

(** [Field(default=None)] on an annotation [T]: the attribute is [None]
    when the key is absent, a validated [T] otherwise.  The annotation is
    not [Optional[T]]: a present value, [null] included, goes to [T]'s
    validator. *)
Definition default_none {A} (alias : string) (val : json -> result A)
    (d : dict) : result (option A) :=
  with_default alias None (fun v => Some <$> val v) d.

End Validators.

(* ================================================================== *)
(** * Declarations the message classes import *)
(* ================================================================== *)

(** Modelled from the spec: [AosSensitiveBytes] is declared in
    [cloud_common/protocols/unit/types.py], which is not among the files
    embedded here.  The spec describes it as a byte buffer protected from
    accidental disclosure, with an explicit reveal accessor as the only path
    to the raw bytes; [dump_secret] calls that accessor,
    [get_secret_value]. *)
Record AosSensitiveBytes : Type := mkSensitive { get_secret_value : bytes }.

(** An annotated field type imported from [types.py] carries its own alias,
    default and constraints.  It is taken as a reader of the attribute it
    annotates: given the attribute's name and the input object, a value or
    errors. *)
Definition field (A : Type) : Type := string -> dict -> result A.

(** Modelled from the spec: the [repr] of an [AosSensitiveBytes], which
    [types.py] would give.  The spec says that the default textual
    representation never reveals the underlying bytes; a value read with
    [get_secret_value] is one of pydantic's secrets, which shows ten
    asterisks in place of its bytes, and nothing when it has no bytes. *)
Definition repr_AosSensitiveBytes (s : AosSensitiveBytes) : string :=
  match get_secret_value s with
  | [] => "SecretBytes(b'')"
  | _ :: _ => "SecretBytes(b'**********')"
  end.

(** The names imported by the three modules from [types.py],
    [unit_config.py] and [constants.py]. *)
Class UnitTypes : Type := {
  validate_AosSensitiveBytes : json -> result AosSensitiveBytes;
  UnitConfig : Type;
  validate_UnitConfig : json -> result UnitConfig;
  DATA_LENGTH_256 : nat;
  component_id : Type;      TypeComponentId : field component_id;
  component_type : Type;    TypeComponentType : field component_type;
  version_t : Type;         TypeVersionMandatory : field version_t;
  annotations_t : Type;     TypeComponentAnnotationsOptional : field annotations_t;
  urls_t : Type;            TypeAosUrlsList : field urls_t;
  sha256_t : Type;          TypeAosSha256 : field sha256_t;
  file_size : Type;         TypeAosFileSize : field file_size;
  layer_id : Type;          TypeLayerIdMandatory : field layer_id;
  layer_digest : Type;      TypeLayerDigest : field layer_digest;
  service_id_t : Type;      TypeServiceIdMandatory : field service_id_t;
  provider_id_t : Type;     TypeProviderIdMandatory : field provider_id_t;
  service_service_id : Type; TypeServiceServiceIdMandatory : field service_service_id;
  subject_subject_id : Type; TypeSubjectSubjectIdMandatory : field subject_subject_id;
  node_id_t : Type;         TypeNodeIdMandatory : field node_id_t;
  node_status : Type;       TypeNodeDesiredStatus : field node_status;
  instance_no : Type;       TypeInstanceNoMandatory : field instance_no;
  system_id_t : Type;       TypeAosSystemIdMandatory : field system_id_t
}.

(* ================================================================== *)
(** * desired_status.py *)
(* ================================================================== *)

(** The members of the two [Literal] annotations that the properties
    below are about. *)
Definition sign_algs : list string := ["RSA/SHA256"; "EC/SHA256"].

Definition schedule_types : list string := ["force"; "trigger"; "timetable"].

Section DesiredStatus.
Context {lib : Library} {ut : UnitTypes}.

(** ** AosReceiverInfo *)
Record AosReceiverInfo : Type := mkAosReceiverInfo {
  ri_serial : string;
  ri_issuer : bytes
}.

Definition decode_AosReceiverInfo (v : json) : result AosReceiverInfo :=
  d <- as_dict v ;;
  mkAosReceiverInfo
    <$> required "serial" validate_str d
    <*> required "issuer" validate_Base64Bytes d.

(** ** AosDecryptionInfo *)
Record AosDecryptionInfo : Type := mkAosDecryptionInfo {
  block_alg : string;
  block_iv : AosSensitiveBytes;
  block_key : AosSensitiveBytes;
  asym_alg : string;
  receiver_info : AosReceiverInfo
}.

Definition decode_AosDecryptionInfo (v : json) : result AosDecryptionInfo :=
  d <- as_dict v ;;
  mkAosDecryptionInfo
    <$> with_default "blockAlg" "AES256/CBC/pkcs7"
          (validate_literal ["AES256/CBC/pkcs7"]) d
    <*> required "blockIv" validate_AosSensitiveBytes d
    <*> required "blockKey" validate_AosSensitiveBytes d
    <*> with_default "asymAlg" "RSA/PKCS1v1_5"
          (validate_literal ["RSA/PKCS1v1_5"; "RSA/PSS"]) d
    <*> required "receiverInfo" decode_AosReceiverInfo d.

(** ** AosCertificateInfo *)
Record AosCertificateInfo : Type := mkAosCertificateInfo {
  ci_certificate : bytes;
  ci_fingerprint : string
}.

Definition decode_AosCertificateInfo (v : json) : result AosCertificateInfo :=
  d <- as_dict v ;;
  mkAosCertificateInfo
    <$> required "certificate" validate_Base64Bytes d
    <*> required "fingerprint" validate_str d.

(** ** AosCertificateChainInfo *)
Record AosCertificateChainInfo : Type := mkAosCertificateChainInfo {
  cc_name : string;
  cc_fingerprints : list string
}.

Definition decode_AosCertificateChainInfo (v : json)
    : result AosCertificateChainInfo :=
  d <- as_dict v ;;
  mkAosCertificateChainInfo
    <$> required "name" validate_str d
    <*> required "fingerprints" (validate_list 0 validate_str) d.

(** ** AosSign *)
Record AosSign : Type := mkAosSign {
  chain_name : string;
  alg : string;
  sign_value : bytes;
  timestamp : datetime;
  ocsp_values : option bytes
}.

Definition decode_AosSign (v : json) : result AosSign :=
  d <- as_dict v ;;
  mkAosSign
    <$> required "chainName" validate_str d
    <*> required "alg" (validate_literal sign_algs) d
    <*> required "value" validate_Base64Bytes d
    <*> required "trustedTimestamp" validate_datetime d
    <*> default_none "ocspValues" validate_Base64Bytes d.

(** ** AosTimeSlot *)
Record AosTimeSlot : Type := mkAosTimeSlot {
  ts_start : time;
  ts_end : time
}.

Definition decode_AosTimeSlot (v : json) : result AosTimeSlot :=
  d <- as_dict v ;;
  mkAosTimeSlot
    <$> required "start" validate_time d
    <*> required "end" validate_time d.

(** ** AosTimetableItem

    [day_of_week] is a plain [int]; [time_slots] has [min_items=1], which
    pydantic v2 reads as [min_length=1]. *)
Record AosTimetableItem : Type := mkAosTimetableItem {
  day_of_week : Z;
  time_slots : list AosTimeSlot
}.

Definition decode_AosTimetableItem (v : json) : result AosTimetableItem :=
  d <- as_dict v ;;
  mkAosTimetableItem
    <$> required "dayOfWeek" validate_int d
    <*> required "timeSlots" (validate_list 1 decode_AosTimeSlot) d.

(** ** AosScheduleRule

    Three fields, no validator over them. *)
Record AosScheduleRule : Type := mkAosScheduleRule {
  ttl : Z;
  sr_type : string;
  timetable : option (list AosTimetableItem)
}.

Definition decode_AosScheduleRule (v : json) : result AosScheduleRule :=
  d <- as_dict v ;;
  mkAosScheduleRule
    <$> required "ttl" validate_int d
    <*> required "type" (validate_literal schedule_types) d
    <*> default_none "timetable" (validate_list 0 decode_AosTimetableItem) d.

(** ** AosDesiredComponentInfo *)
Record AosDesiredComponentInfo : Type := mkAosDesiredComponentInfo {
  dc_id : component_id;
  dc_type : component_type;
  dc_version : version_t;
  dc_annotations : annotations_t;
  dc_urls : urls_t;
  dc_sha256 : sha256_t;
  dc_size : file_size;
  dc_decryption_info : AosDecryptionInfo
}.

Definition decode_AosDesiredComponentInfo (v : json)
    : result AosDesiredComponentInfo :=
  d <- as_dict v ;;
  mkAosDesiredComponentInfo
    <$> TypeComponentId "id" d
    <*> TypeComponentType "type" d
    <*> TypeVersionMandatory "version" d
    <*> TypeComponentAnnotationsOptional "annotations" d
    <*> TypeAosUrlsList "urls" d
    <*> TypeAosSha256 "sha256" d
    <*> TypeAosFileSize "size" d
    <*> required "decryptionInfo" decode_AosDecryptionInfo d.

(** ** AosDesiredLayerInfo *)
Record AosDesiredLayerInfo : Type := mkAosDesiredLayerInfo {
  dl_id : layer_id;
  dl_version : version_t;
  dl_digest : layer_digest;
  dl_urls : urls_t;
  dl_sha256 : sha256_t;
  dl_size : file_size;
  dl_decryption_info : AosDecryptionInfo
}.

Definition decode_AosDesiredLayerInfo (v : json) : result AosDesiredLayerInfo :=
  d <- as_dict v ;;
  mkAosDesiredLayerInfo
    <$> TypeLayerIdMandatory "id" d
    <*> TypeVersionMandatory "version" d
    <*> TypeLayerDigest "digest" d
    <*> TypeAosUrlsList "urls" d
    <*> TypeAosSha256 "sha256" d
    <*> TypeAosFileSize "size" d
    <*> required "decryptionInfo" decode_AosDecryptionInfo d.

(** ** AosDesiredServiceInfo *)
Record AosDesiredServiceInfo : Type := mkAosDesiredServiceInfo {
  ds_service_id : service_id_t;
  ds_provider_id : provider_id_t;
  ds_version : version_t;
  ds_urls : urls_t;
  ds_sha256 : sha256_t;
  ds_size : file_size;
  ds_decryption_info : AosDecryptionInfo
}.

Definition decode_AosDesiredServiceInfo (v : json)
    : result AosDesiredServiceInfo :=
  d <- as_dict v ;;
  mkAosDesiredServiceInfo
    <$> TypeServiceIdMandatory "service_id" d
    <*> TypeProviderIdMandatory "provider_id" d
    <*> TypeVersionMandatory "version" d
    <*> TypeAosUrlsList "urls" d
    <*> TypeAosSha256 "sha256" d
    <*> TypeAosFileSize "size" d
    <*> required "decryptionInfo" decode_AosDecryptionInfo d.

(** ** AosDesiredInstanceInfo

    [priority] has [ge=0, lt=1000000]; [num_instances] has [default=1,
    gt=0]. *)
Record AosDesiredInstanceInfo : Type := mkAosDesiredInstanceInfo {
  di_service_id : service_service_id;
  di_subject_id : subject_subject_id;
  priority : Z;
  num_instances : Z;
  labels : option (list string)
}.

Definition validate_priority (v : json) : result Z :=
  z <- validate_int v ;; z <- check_lt 1000000 z ;; check_ge 0 z.

Definition validate_num_instances (v : json) : result Z :=
  z <- validate_int v ;; check_gt 0 z.

Definition decode_AosDesiredInstanceInfo (v : json)
    : result AosDesiredInstanceInfo :=
  d <- as_dict v ;;
  mkAosDesiredInstanceInfo
    <$> TypeServiceServiceIdMandatory "service_id" d
    <*> TypeSubjectSubjectIdMandatory "subject_id" d
    <*> required "priority" validate_priority d
    <*> with_default "numInstances" 1 validate_num_instances d
    <*> default_none "labels" (validate_list 0 validate_str) d.

(** ** AosNodeDesiredState *)
Record AosNodeDesiredState : Type := mkAosNodeDesiredState {
  nd_node_id : node_id_t;
  nd_state : node_status
}.

Definition decode_AosNodeDesiredState (v : json) : result AosNodeDesiredState :=
  d <- as_dict v ;;
  mkAosNodeDesiredState
    <$> TypeNodeIdMandatory "node_id" d
    <*> TypeNodeDesiredStatus "state" d.

(** ** AosDesiredStatus

    Every payload field is declared with [default=None] on a non-optional
    annotation. *)
Record AosDesiredStatus : Type := mkAosDesiredStatus {
  message_type : string;
  nodes : option (list AosNodeDesiredState);
  unit_config : option UnitConfig;
  components : option (list AosDesiredComponentInfo);
  layers : option (list AosDesiredLayerInfo);
  services : option (list AosDesiredServiceInfo);
  instances : option (list AosDesiredInstanceInfo);
  fota_schedule : option AosScheduleRule;
  sota_schedule : option AosScheduleRule;
  certificates : option (list AosCertificateInfo);
  certificate_chains : option (list AosCertificateChainInfo)
}.

Definition decode_AosDesiredStatus (v : json) : result AosDesiredStatus :=
  d <- as_dict v ;;
  mkAosDesiredStatus
    <$> required "messageType" (validate_literal ["desiredStatus"]) d
    <*> default_none "nodes" (validate_list 0 decode_AosNodeDesiredState) d
    <*> default_none "unitConfig" validate_UnitConfig d
    <*> default_none "components" (validate_list 0 decode_AosDesiredComponentInfo) d
    <*> default_none "layers" (validate_list 0 decode_AosDesiredLayerInfo) d
    <*> default_none "services" (validate_list 0 decode_AosDesiredServiceInfo) d
    <*> default_none "instances" (validate_list 0 decode_AosDesiredInstanceInfo) d
    <*> default_none "fotaSchedule" decode_AosScheduleRule d
    <*> default_none "sotaSchedule" decode_AosScheduleRule d
    <*> default_none "certificates" (validate_list 0 decode_AosCertificateInfo) d
    <*> default_none "certificateChains"
          (validate_list 0 decode_AosCertificateChainInfo) d.

(** What a decoded message says about one of its list categories: leave
    it as it is, or replace it by the given entries (none, to clear it). *)
Inductive change : Type :=
| NoChange
| ReplaceWith (n : nat).

Definition change_of {A} (o : option (list A)) : change :=
  match o with
  | None => NoChange
  | Some l => ReplaceWith (List.length l)
  end.

Definition list_fields : list string :=
  ["nodes"; "components"; "layers"; "services"; "instances";
   "certificates"; "certificateChains"].

Definition category (alias : string) (m : AosDesiredStatus) : option change :=
  if String.eqb alias "nodes" then Some (change_of (nodes m))
  else if String.eqb alias "components" then Some (change_of (components m))
  else if String.eqb alias "layers" then Some (change_of (layers m))
  else if String.eqb alias "services" then Some (change_of (services m))
  else if String.eqb alias "instances" then Some (change_of (instances m))
  else if String.eqb alias "certificates" then Some (change_of (certificates m))
  else if String.eqb alias "certificateChains"
       then Some (change_of (certificate_chains m))
  else None.

(** The message with nothing but its discriminator, and the same message
    with one more member. *)
Definition desired_only : json :=
  JObj [("messageType", JStr "desiredStatus")].

Definition desired_with (alias : string) (v : json) : json :=
  JObj [("messageType", JStr "desiredStatus"); (alias, v)].

Definition no_change : AosDesiredStatus :=
  mkAosDesiredStatus "desiredStatus"
    None None None None None None None None None None.

End DesiredStatus.

(** A descriptor whose two algorithms are among the declared ones. *)
Definition declared_algorithms (i : AosDecryptionInfo) : Prop :=
  block_alg i = "AES256/CBC/pkcs7" /\
  (asym_alg i = "RSA/PKCS1v1_5" \/ asym_alg i = "RSA/PSS").

(** The keys that [AosDesiredStatus] reads: the alias of each field, or its
    name where no alias is declared.  No class sets a model configuration,
    so members under any other key are ignored. *)
Definition desired_aliases : list string :=
  ["messageType"; "nodes"; "unitConfig"; "components"; "layers"; "services";
   "instances"; "fotaSchedule"; "sotaSchedule"; "certificates";
   "certificateChains"].

(* ================================================================== *)
(** * state.py *)
(* ================================================================== *)

Section State.
Context {ut : UnitTypes}.

(** ** AosNewState and AosUpdateState

    [AosUpdateState] subclasses [AosNewState] and redeclares only
    [message_type], which keeps its place as the first field.  The two
    classes share the record of attributes and the body of the decoder; the
    literal of the discriminator is what differs. *)
Record AosNewState : Type := mkAosNewState {
  ns_message_type : string;
  ns_service_id : service_service_id;
  ns_subject_id : subject_subject_id;
  ns_instance : instance_no;
  checksum : string;
  state : string
}.

Definition AosUpdateState : Type := AosNewState.

Definition validate_checksum (v : json) : result string :=
  s <- validate_str v ;; check_str_length 1 (Some DATA_LENGTH_256) s.

Definition validate_state (v : json) : result string :=
  s <- validate_str v ;; check_str_length 0 None s.

Definition decode_state_fields (tag : string) (d : dict) : result AosNewState :=
  mkAosNewState
    <$> required "messageType" (validate_literal [tag]) d
    <*> TypeServiceServiceIdMandatory "service_id" d
    <*> TypeSubjectSubjectIdMandatory "subject_id" d
    <*> TypeInstanceNoMandatory "instance" d
    <*> required "stateChecksum" validate_checksum d
    <*> required "state" validate_state d.

Definition decode_AosNewState (v : json) : result AosNewState :=
  d <- as_dict v ;; decode_state_fields "newState" d.

Definition decode_AosUpdateState (v : json) : result AosUpdateState :=
  d <- as_dict v ;; decode_state_fields "updateState" d.

End State.

(** ** AosStateAcceptance and AosStateRequest *)

(** [bool] in lax mode: a JSON boolean is taken as it is; which strings,
    which integers and which whole floats count as booleans is the library's
    business. *)
Class LaxBool : Type := {
  str_as_bool : string -> option bool;
  int_as_bool : Z -> option bool;
  float_as_bool : float -> option bool
}.

Definition acceptance_results : list string := ["accepted"; "rejected"].

Section StateReplies.
Context {lb : LaxBool} {ut : UnitTypes}.

(** A float is first read as an integer; one that has a fractional part, is
    not finite or does not fit a machine word is no boolean at all, and
    neither is an integer that does not fit. *)
Definition float_is_int64 (f : float) : bool :=
  match float_integer f with
  | Some z => (- 2 ^ 63 <? z) && (z <? 2 ^ 63)
  | None => false
  end.

Definition validate_bool (v : json) : result bool :=
  match v with
  | JBool b => Ok b
  | JStr s =>
      match str_as_bool s with Some b => Ok b | None => fail "bool_parsing" end
  | JInt z =>
      if in_int64 z then
        match int_as_bool z with Some b => Ok b | None => fail "bool_parsing" end
      else fail "bool_type"
  | JFloat f =>
      if float_is_int64 f then
        match float_as_bool f with Some b => Ok b | None => fail "bool_parsing" end
      else fail "bool_type"
  | _ => fail "bool_type"
  end.

(** The checksum of an acceptance travels under the key [checksum], not
    [stateChecksum] as in [AosNewState]. *)
Record AosStateAcceptance : Type := mkAosStateAcceptance {
  sa_message_type : string;
  sa_service_id : service_service_id;
  sa_subject_id : subject_subject_id;
  sa_instance : instance_no;
  sa_checksum : string;
  sa_result : string;
  sa_reason : string
}.

Definition decode_AosStateAcceptance (v : json) : result AosStateAcceptance :=
  d <- as_dict v ;;
  mkAosStateAcceptance
    <$> required "messageType" (validate_literal ["stateAcceptance"]) d
    <*> TypeServiceServiceIdMandatory "service_id" d
    <*> TypeSubjectSubjectIdMandatory "subject_id" d
    <*> TypeInstanceNoMandatory "instance" d
    <*> required "checksum" validate_checksum d
    <*> required "result" (validate_literal acceptance_results) d
    <*> required "reason" validate_state d.

(** [default] is the name of the flag; the field itself has no default. *)
Record AosStateRequest : Type := mkAosStateRequest {
  sq_message_type : string;
  sq_service_id : service_service_id;
  sq_subject_id : subject_subject_id;
  sq_instance : instance_no;
  sq_default : bool
}.

Definition decode_AosStateRequest (v : json) : result AosStateRequest :=
  d <- as_dict v ;;
  mkAosStateRequest
    <$> required "messageType" (validate_literal ["stateRequest"]) d
    <*> TypeServiceServiceIdMandatory "service_id" d
    <*> TypeSubjectSubjectIdMandatory "subject_id" d
    <*> TypeInstanceNoMandatory "instance" d
    <*> required "default" validate_bool d.

End StateReplies.

(* ================================================================== *)
(** * header.py *)
(* ================================================================== *)

Section Header.
Context {ut : UnitTypes}.

(** ** AosUnitHeader: [version] is [Literal[6]]. *)
Record AosUnitHeader : Type := mkAosUnitHeader {
  version : Z;
  system_id : system_id_t
}.

Definition decode_AosUnitHeader (v : json) : result AosUnitHeader :=
  d <- as_dict v ;;
  mkAosUnitHeader
    <$> required "version" (validate_literal_int 6) d
    <*> TypeAosSystemIdMandatory "system_id" d.

End Header.

(* ================================================================== *)
(** * Base64 (RFC 4648, standard alphabet, with padding) *)
(* ================================================================== *)

(** [base64.b64encode] takes bytes three at a time and writes four letters
    of the alphabet, six bits each; a last group of one or two bytes is
    padded with [=]. *)
Definition b64_alphabet : bytes :=
  list_byte_of_string
    "ABCDEFGHIJKLMNOPQRSTUVWXYZabcdefghijklmnopqrstuvwxyz0123456789+/".

Definition b64_pad : byte := "="%byte.

Definition byte_val (b : byte) : Z := Z.of_N (Byte.to_N b).

Definition byte_of_val (z : Z) : option byte := Byte.of_N (Z.to_N z).

Definition b64_char (n : Z) : byte := nth (Z.to_nat n) b64_alphabet b64_pad.

Fixpoint index_of (c : byte) (l : bytes) (i : Z) : option Z :=
  match l with
  | [] => None
  | x :: l' => if Byte.eqb c x then Some i else index_of c l' (i + 1)
  end.

Definition b64_index (c : byte) : option Z := index_of c b64_alphabet 0.

Fixpoint b64encode (bs : bytes) : bytes :=
  match bs with
  | [] => []
  | [x] =>
      let a := byte_val x in
      [b64_char (a / 4); b64_char (a mod 4 * 16); b64_pad; b64_pad]
  | [x; y] =>
      let a := byte_val x in
      let b := byte_val y in
      [b64_char (a / 4); b64_char (a mod 4 * 16 + b / 16);
       b64_char (b mod 16 * 4); b64_pad]
  | x :: y :: z :: rest =>
      let a := byte_val x in
      let b := byte_val y in
      let c := byte_val z in
      b64_char (a / 4) :: b64_char (a mod 4 * 16 + b / 16)
        :: b64_char (b mod 16 * 4 + c / 64) :: b64_char (c mod 64)
        :: b64encode rest
  end.

Definition obind {A B} (o : option A) (k : A -> option B) : option B :=
  match o with Some a => k a | None => None end.

(** Strict decoding: groups of four letters, padding only in the last
    group, nothing outside the alphabet. *)
Fixpoint b64decode (cs : bytes) : option bytes :=
  match cs with
  | [] => Some []
  | c0 :: c1 :: c2 :: c3 :: rest =>
      obind (b64_index c0) (fun s0 =>
      obind (b64_index c1) (fun s1 =>
      obind (byte_of_val (s0 * 4 + s1 / 16)) (fun x =>
      if Byte.eqb c3 b64_pad then
        match rest with
        | [] =>
            if Byte.eqb c2 b64_pad then Some [x]
            else
              obind (b64_index c2) (fun s2 =>
              obind (byte_of_val (s1 mod 16 * 16 + s2 / 4)) (fun y =>
              Some [x; y]))
        | _ :: _ => None
        end
      else
        obind (b64_index c2) (fun s2 =>
        obind (b64_index c3) (fun s3 =>
        obind (byte_of_val (s1 mod 16 * 16 + s2 / 4)) (fun y =>
        obind (byte_of_val (s2 mod 4 * 64 + s3)) (fun z =>
        obind (b64decode rest) (fun out =>
        Some (x :: y :: z :: out)))))))))
  | _ => None
  end.

(** A six-bit value is written as a letter that is not the padding and
    that [b64_index] reads back. *)
Definition sextet_ok (k : nat) : bool :=
  match b64_index (b64_char (Z.of_nat k)) with
  | Some m => (m =? Z.of_nat k) && negb (Byte.eqb (b64_char (Z.of_nat k)) b64_pad)
  | None => false
  end.

(** The letters base64 text is made of. *)
Definition b64_letter (c : byte) : Prop := In c b64_alphabet \/ c = b64_pad.

(** Does [needle] occur in [hay] as a run of consecutive characters? *)
Fixpoint contains (needle hay : string) : bool :=
  String.prefix needle hay ||
  match hay with
  | EmptyString => false
  | String _ hay' => contains needle hay'
  end.

(* ================================================================== *)
(** * Rendering AosDecryptionInfo: wire and diagnostics *)
(* ================================================================== *)

Section Rendering.
Context {lib : Library} {ut : UnitTypes}.

(** [AosDecryptionInfo.dump_secret], the serializer of [block_key] and
    [block_iv] in JSON mode ([when_used='json']). *)
Definition dump_secret (struct_value : AosSensitiveBytes) : bytes :=
  b64encode (get_secret_value struct_value).

(** A [bytes] returned by a serializer goes on the wire as the string it
    spells; base64 text is plain ASCII. *)
Definition ser_json_bytes (b : bytes) : json := JStr (string_of_list_byte b).

(** The key of a field on output: its alias when dumping [by_alias], its
    attribute name otherwise. *)
Definition out_key (by_alias : bool) (name alias : string) : string :=
  if by_alias then alias else name.

Definition dump_json_AosReceiverInfo (r : AosReceiverInfo) : json :=
  JObj [("serial", JStr (ri_serial r));
        ("issuer", dump_Base64Bytes (ri_issuer r))].

(** [model_dump(mode='json')] of an [AosDecryptionInfo]. *)
Definition dump_json_AosDecryptionInfo (by_alias : bool)
    (r : AosDecryptionInfo) : json :=
  JObj [(out_key by_alias "block_alg" "blockAlg", JStr (block_alg r));
        (out_key by_alias "block_iv" "blockIv",
           ser_json_bytes (dump_secret (block_iv r)));
        (out_key by_alias "block_key" "blockKey",
           ser_json_bytes (dump_secret (block_key r)));
        (out_key by_alias "asym_alg" "asymAlg", JStr (asym_alg r));
        (out_key by_alias "receiver_info" "receiverInfo",
           dump_json_AosReceiverInfo (receiver_info r))].

(** [repr] of a model: the class name and the fields as [name=repr(value)].
    Neither class overrides it; the two sensitive fields are shown by their
    own type's [repr]. *)
Definition repr_AosReceiverInfo (r : AosReceiverInfo) : string :=
  "AosReceiverInfo(serial=" ++ repr_str (ri_serial r)
    ++ ", issuer=" ++ repr_bytes (ri_issuer r) ++ ")".

Definition repr_AosDecryptionInfo (r : AosDecryptionInfo) : string :=
  "AosDecryptionInfo(block_alg=" ++ repr_str (block_alg r)
    ++ ", block_iv=" ++ repr_AosSensitiveBytes (block_iv r)
    ++ ", block_key=" ++ repr_AosSensitiveBytes (block_key r)
    ++ ", asym_alg=" ++ repr_str (asym_alg r)
    ++ ", receiver_info=" ++ repr_AosReceiverInfo (receiver_info r) ++ ")".

(** Has [k] a character that [hay] has not? *)
Definition foreign_to (k hay : string) : bool :=
  existsb (fun c => negb (existsb (Ascii.eqb c) (list_ascii_of_string hay)))
    (list_ascii_of_string k).

(** What is shown for a sensitive value that has bytes. *)
Definition masked : string := "SecretBytes(b'**********')".

(** The secret a reader of the wire form recovers for a field: the member
    under the field's key, base64-decoded. *)
Definition wire_secret (by_alias : bool) (name alias : string)
    (r : AosDecryptionInfo) : option bytes :=
  match dump_json_AosDecryptionInfo by_alias r with
  | JObj members =>
      match lookup (out_key by_alias name alias) members with
      | Some (JStr text) => b64decode (list_byte_of_string text)
      | _ => None
      end
  | _ => None
  end.

(** The record with other bytes in its two sensitive fields. *)
Definition with_secrets (iv key : bytes) (r : AosDecryptionInfo)
    : AosDecryptionInfo :=
  mkAosDecryptionInfo (block_alg r) (mkSensitive iv) (mkSensitive key)
    (asym_alg r) (receiver_info r).

End Rendering.

(* ================================================================== *)
(** * A concrete reading of the imported declarations *)
(* ================================================================== *)

(** To run the decoders on examples, the library validators and the types
    of [types.py] need values.  The ones below are deliberately plain:
    identifiers are non-empty strings read under the attribute's name,
    dates and times are kept as their text, and binary fields are strict
    base64. *)
Module Sample.

Fixpoint digits (s : string) (acc : Z) : option Z :=
  match s with
  | EmptyString => Some acc
  | String c s' =>
      let n := Z.of_N (N_of_ascii c) in
      if (48 <=? n) && (n <=? 57) then digits s' (acc * 10 + (n - 48)) else None
  end.

Definition decimal (s : string) : option Z :=
  match s with
  | EmptyString => None
  | _ => digits s 0
  end.

Definition validate_text (v : json) : result string :=
  match v with
  | JStr s => Ok s
  | _ => fail "string_type"
  end.

Definition validate_b64 (v : json) : result bytes :=
  match v with
  | JStr s =>
      match b64decode (list_byte_of_string s) with
      | Some b => Ok b
      | None => fail "base64_decode"
      end
  | _ => fail "bytes_type"
  end.

(** Library conversions for the examples: booleans count as 0 and 1, a
    string of decimal digits is read as its number, a whole float that fits
    a machine word as its integer, dates and times are kept as their text, [Base64Bytes] is
    strict base64 in both directions, and [repr] quotes plain text. *)
Definition lib : Library := {|
  bool_as_int := fun b => Some (Z.b2z b);
  str_as_int := decimal;
  float_as_int := fun f => if float_is_int64 f then float_integer f else None;
  datetime := string;
  validate_datetime := validate_text;
  time := string;
  validate_time := validate_text;
  validate_Base64Bytes := validate_b64;
  dump_Base64Bytes := fun b => JStr (string_of_list_byte (b64encode b));
  repr_str := fun s => "'" ++ s ++ "'";
  repr_bytes := fun b => "b'" ++ string_of_list_byte b ++ "'"
|}.

Definition identifier : field string :=
  fun name d =>
    required name
      (fun v => s <- validate_str v ;; check_str_length 1 None s) d.

Definition number : field Z :=
  fun name d => required name (validate_int (lib := lib)) d.

(** Modelled from the spec: the annotated types of [types.py], the
    [UnitConfig] model and the [DataSizes] constant are not among the files
    embedded here.  Following the spec's data model, identifiers, versions
    and digests are non-empty strings, sizes and instance numbers are
    integers, the URL list is non-empty, the checksum bound is 256, and a
    sensitive value is base64 on the wire. *)
Definition ut : UnitTypes := {|
  validate_AosSensitiveBytes := fun v => mkSensitive <$> validate_b64 v;
  UnitConfig := json;
  validate_UnitConfig := fun v => Ok v;
  DATA_LENGTH_256 := 256%nat;
  component_id := string;      TypeComponentId := identifier;
  component_type := string;    TypeComponentType := identifier;
  version_t := string;         TypeVersionMandatory := identifier;
  annotations_t := option json;
  TypeComponentAnnotationsOptional := fun name d => Ok (lookup name d);
  urls_t := list string;
  TypeAosUrlsList := fun name d =>
    required name (validate_list 1 validate_str) d;
  sha256_t := string;          TypeAosSha256 := identifier;
  file_size := Z;              TypeAosFileSize := number;
  layer_id := string;          TypeLayerIdMandatory := identifier;
  layer_digest := string;      TypeLayerDigest := identifier;
  service_id_t := string;      TypeServiceIdMandatory := identifier;
  provider_id_t := string;     TypeProviderIdMandatory := identifier;
  service_service_id := string; TypeServiceServiceIdMandatory := identifier;
  subject_subject_id := string; TypeSubjectSubjectIdMandatory := identifier;
  node_id_t := string;         TypeNodeIdMandatory := identifier;
  node_status := string;       TypeNodeDesiredStatus := identifier;
  instance_no := Z;            TypeInstanceNoMandatory := number;
  system_id_t := string;       TypeAosSystemIdMandatory := identifier
|}.

(** Inputs for the examples. *)
Definition slot : json :=
  JObj [("start", JStr "08:00"); ("end", JStr "17:30")].

Definition decoded_slot : AosTimeSlot (lib := lib) :=
  mkAosTimeSlot (lib := lib) "08:00" "17:30".

Definition item (day : Z) (slots : list json) : json :=
  JObj [("dayOfWeek", JInt day); ("timeSlots", JArr slots)].

Definition rule (seconds : Z) (ty : string) (rest : dict) : dict :=
  ("ttl", JInt seconds) :: ("type", JStr ty) :: rest.

Definition instance_info (rest : dict) : dict :=
  ("service_id", JStr "navigation") :: ("subject_id", JStr "driver") :: rest.

Definition state_message (tag : string) : dict :=
  [("messageType", JStr tag); ("service_id", JStr "navigation");
   ("subject_id", JStr "driver"); ("instance", JInt 0);
   ("stateChecksum", JStr "c0ffee"); ("state", JStr "{}")].

Definition header (v : json) : dict :=
  [("version", v); ("system_id", JStr "unit-1")].

Definition sign (algorithm : string) : dict :=
  [("chainName", JStr "online"); ("alg", JStr algorithm);
   ("value", JStr "c2ln"); ("trustedTimestamp", JStr "2024-01-01T00:00:00Z")].

(** A decryption descriptor whose 32-byte key happens to spell the serial
    number of the receiver certificate. *)
Definition key32 : string := "0123456789abcdef0123456789abcdef".

Definition decryption_info : json :=
  JObj [("blockIv", JStr "aXZpdml2aXZpdml2aXZpdg==");
        ("blockKey", JStr "MDEyMzQ1Njc4OWFiY2RlZjAxMjM0NTY3ODlhYmNkZWY=");
        ("receiverInfo", JObj [("serial", JStr key32); ("issuer", JStr "")])].

Definition decoded_info : AosDecryptionInfo :=
  mkAosDecryptionInfo "AES256/CBC/pkcs7"
    (mkSensitive (list_byte_of_string "iviviviviviviviv"))
    (mkSensitive (list_byte_of_string key32))
    "RSA/PKCS1v1_5"
    (mkAosReceiverInfo key32 []).


(** Booleans for the examples: the spellings [true] and [false], and the
    numbers 0 and 1. *)
Definition lb : LaxBool := {|
  str_as_bool := fun s =>
    if String.eqb s "true" then Some true
    else if String.eqb s "false" then Some false else None;
  int_as_bool := fun z =>
    if z =? 0 then Some false else if z =? 1 then Some true else None;
  float_as_bool := fun f =>
    match float_integer f with
    | Some 0 => Some false
    | Some 1 => Some true
    | _ => None
    end
|}.

Definition state_body (rest : dict) : dict :=
  ("service_id", JStr "navigation") :: ("subject_id", JStr "driver")
    :: ("instance", JInt 0) :: rest.

Definition chain (name : string) (fingerprints : list string) : json :=
  JObj [("name", JStr name); ("fingerprints", JArr (map JStr fingerprints))].

Definition instance (p : Z) : json :=
  JObj (instance_info [("priority", JInt p)]).

Definition service : json :=
  JObj [("service_id", JStr "navigation"); ("provider_id", JStr "maps");
        ("version", JStr "1.0.0"); ("urls", JArr [JStr "https://cdn/nav"]);
        ("sha256", JStr "ab12"); ("size", JInt 1024);
        ("decryptionInfo", decryption_info)].

(** A message with two instances, a FOTA schedule and a service, and the
    record it decodes to. *)
Definition message : dict :=
  [("messageType", JStr "desiredStatus");
   ("services", JArr [service]);
   ("instances", JArr [instance 1; instance 999999]);
   ("fotaSchedule",
      JObj (rule 3600 "timetable" [("timetable", JArr [item 1 [slot]])]))].

Definition decoded_rule : AosScheduleRule (lib := lib) :=
  mkAosScheduleRule 3600 "timetable"
    (Some [mkAosTimetableItem 1 [decoded_slot]]).

Definition decoded_message : AosDesiredStatus (lib := lib) (ut := ut) :=
  mkAosDesiredStatus (ut := ut) "desiredStatus" None None None None
    (Some [mkAosDesiredServiceInfo (ut := ut) "navigation" "maps" "1.0.0"
             ["https://cdn/nav"] "ab12" 1024 decoded_info])
    (Some [mkAosDesiredInstanceInfo (ut := ut) "navigation" "driver" 1 1 None;
           mkAosDesiredInstanceInfo (ut := ut)
             "navigation" "driver" 999999 1 None])
    (Some decoded_rule) None None None.
End Sample.

(* ================================================================== *)
(** * Facts about results *)
(* ================================================================== *)

Section ResultFacts.
Context {A B : Type}.

Lemma rmap_ok_inv (f : A -> B) (r : result A) (b : B) :
  f <$> r = Ok b -> exists a, r = Ok a /\ b = f a.
Proof.
  destruct r as [a | es]; simpl; intros H; [|discriminate].
  injection H as <-. now exists a.
Qed.

Lemma ap_ok_inv (rf : result (A -> B)) (ra : result A) (b : B) :
  rf <*> ra = Ok b -> exists f a, rf = Ok f /\ ra = Ok a /\ b = f a.
Proof.
  destruct rf as [f | es1], ra as [a | es2]; simpl; intros H; try discriminate.
  injection H as <-. now exists f, a.
Qed.

Lemma bind_ok_inv (r : result A) (k : A -> result B) (b : B) :
  bind r k = Ok b -> exists a, r = Ok a /\ k a = Ok b.
Proof.
  destruct r as [a | es]; simpl; intros H; [|discriminate]. now exists a.
Qed.

Lemma errors_rmap (f : A -> B) (r : result A) : errors (f <$> r) = errors r.
Proof. now destruct r. Qed.

Lemma errors_ap (rf : result (A -> B)) (ra : result A) :
  errors (rf <*> ra) = (errors rf ++ errors ra)%list.
Proof.
  destruct rf, ra; simpl; auto using app_nil_r.
Qed.

Lemma is_ok_rmap (f : A -> B) (r : result A) : is_ok (f <$> r) = is_ok r.
Proof. now destruct r. Qed.

Lemma is_ok_ap (rf : result (A -> B)) (ra : result A) :
  is_ok (rf <*> ra) = is_ok rf && is_ok ra.
Proof. now destruct rf, ra. Qed.

End ResultFacts.

Lemma is_ok_at_loc {A} (l : loc_item) (r : result A) :
  is_ok (at_loc l r) = is_ok r.
Proof. now destruct r. Qed.

Lemma errors_at_loc {A} (l : loc_item) (r : result A) :
  errors (at_loc l r) = map (push_loc l) (errors r).
Proof. now destruct r. Qed.

Lemma at_loc_ok_inv {A} (l : loc_item) (r : result A) (a : A) :
  at_loc l r = Ok a -> r = Ok a.
Proof. destruct r; simpl; congruence. Qed.

(** A failed result is a result with at least the errors it reports. *)
Lemma not_ok_err {A} (r : result A) :
  is_ok r = false -> r = Err (errors r).
Proof. destruct r; simpl; congruence. Qed.

Lemma in_errors_not_ok {A} (r : result A) (e : error) :
  In e (errors r) -> is_ok r = false.
Proof. destruct r; simpl; tauto. Qed.

(** Reading a field whose key is present, and one whose key is absent. *)
Lemma required_present {A} alias (val : json -> result A) d v :
  lookup alias d = Some v -> required alias val d = at_loc (LKey alias) (val v).
Proof. unfold required. now intros ->. Qed.

Lemma required_absent {A} alias (val : json -> result A) d :
  lookup alias d = None ->
  required alias val d = Err [mkError [LKey alias] "missing"].
Proof. unfold required. now intros ->. Qed.

Lemma with_default_present {A} alias (dflt : A) (val : json -> result A) d v :
  lookup alias d = Some v ->
  with_default alias dflt val d = at_loc (LKey alias) (val v).
Proof. unfold with_default. now intros ->. Qed.

Lemma with_default_absent {A} alias (dflt : A) (val : json -> result A) d :
  lookup alias d = None -> with_default alias dflt val d = Ok dflt.
Proof. unfold with_default. now intros ->. Qed.

Lemma required_ok_inv {A} alias (val : json -> result A) d a :
  required alias val d = Ok a -> exists v, lookup alias d = Some v /\ val v = Ok a.
Proof.
  unfold required. destruct (lookup alias d) as [v|]; [|discriminate].
  intros H. exists v. split; [reflexivity|]. now apply at_loc_ok_inv in H.
Qed.

(** Taking a successful decode apart, field by field. *)
Ltac fields_inv H :=
  repeat match type of H with
  | ap _ _ = Ok _ =>
      let f := fresh "f" in
      let a := fresh "a" in
      let Ha := fresh "Hfield" in
      let E := fresh "E" in
      apply ap_ok_inv in H; destruct H as (f & a & H & Ha & E)
  | rmap _ _ = Ok _ =>
      let a := fresh "a" in
      let Ha := fresh "Hfield" in
      let E := fresh "E" in
      apply rmap_ok_inv in H; destruct H as (a & Ha & E)
  end.

(* ================================================================== *)
(** * Literals and lists *)
(* ================================================================== *)

Lemma validate_literal_member members s :
  In s members -> validate_literal members (JStr s) = Ok s.
Proof.
  intros Hin. simpl.
  assert (E : existsb (String.eqb s) members = true).
  { apply existsb_exists. exists s. split; [assumption | apply String.eqb_refl]. }
  now rewrite E.
Qed.

Lemma validate_literal_ok_inv members v s :
  validate_literal members v = Ok s -> v = JStr s /\ In s members.
Proof.
  destruct v as [| | | | s0 | |]; simpl; try discriminate.
  destruct (existsb (String.eqb s0) members) eqn:E; [|discriminate].
  intros H. injection H as <-. split; [reflexivity|].
  apply existsb_exists in E. destruct E as (x & Hin & Hx).
  apply String.eqb_eq in Hx. now subst.
Qed.

Lemma validate_literal_not_member members v :
  (forall s, In s members -> v <> JStr s) ->
  validate_literal members v = fail "literal_error".
Proof.
  intros Hv. destruct v as [| | | | s | |]; simpl; try reflexivity.
  destruct (existsb (String.eqb s) members) eqn:E; [|reflexivity].
  apply existsb_exists in E. destruct E as (x & Hin & Hx).
  apply String.eqb_eq in Hx. subst x. exfalso. now apply (Hv s Hin).
Qed.

Lemma validate_literal_int_ok_inv n v z :
  validate_literal_int n v = Ok z -> z = n /\ equals_int v n = true.
Proof.
  unfold validate_literal_int.
  destruct v as [| b | z0 | f | s | l | m];
    try (destruct (equals_int _ n) eqn:E; [|discriminate];
         intros H; injection H as <-; auto).
  destruct (in_int64 z0); [|discriminate].
  simpl. destruct (z0 =? n); [|discriminate].
  intros H. injection H as <-. auto.
Qed.

Lemma validate_literal_int_equal n v :
  in_int64 n = true -> equals_int v n = true ->
  validate_literal_int n v = Ok n.
Proof.
  intros Hn Hv. unfold validate_literal_int.
  destruct v as [| b | z0 | f | s | l | m]; try (now rewrite Hv).
  simpl in Hv. rewrite Hv. apply Z.eqb_eq in Hv. subst z0. now rewrite Hn.
Qed.

Lemma validate_literal_int_other n v :
  equals_int v n = false ->
  validate_literal_int n v
    = match v with
      | JInt z => if in_int64 z then fail "literal_error"
                  else fail "int_parsing_size"
      | _ => fail "literal_error"
      end.
Proof.
  intros Hv. unfold validate_literal_int.
  destruct v as [| b | z0 | f | s | l | m]; try (now rewrite Hv).
  simpl in Hv. now rewrite Hv.
Qed.

Lemma equals_int_6_inv v :
  equals_int v 6 = true ->
  v = JInt 6 \/ exists f, v = JFloat f /\ float_integer f = Some 6.
Proof.
  destruct v as [| b | z0 | f | s | l | m]; simpl; try discriminate.
  - destruct b; discriminate.
  - intros H. apply Z.eqb_eq in H. left. now subst.
  - destruct (float_integer f) as [z|] eqn:E; [|discriminate].
    intros H. apply Z.eqb_eq in H. subst. right. now exists f.
Qed.

Lemma validate_list_min {A} n (item : json -> result A) v out :
  validate_list n item v = Ok out -> (n <= List.length out)%nat.
Proof.
  destruct v as [| | | | | vs |]; try discriminate. unfold validate_list.
  intros H. apply bind_ok_inv in H. destruct H as (l & _ & H). cbv beta in H.
  destruct (List.length l <? n)%nat eqn:E; [discriminate|].
  injection H as <-. apply Nat.ltb_ge in E. exact E.
Qed.

Lemma validate_list_0 {A} (item : json -> result A) vs out :
  validate_items item 0 vs = Ok out ->
  validate_list 0 item (JArr vs) = Ok out.
Proof. intros H. unfold validate_list. now rewrite H. Qed.

(* ================================================================== *)
(** * Schedule rules and timetables *)
(* ================================================================== *)

Section ScheduleFacts.
Context {lib : Library}.

(** What an [AosScheduleRule] decodes to once its three fields are read. *)
Lemma decode_AosScheduleRule_fields d z ty tt :
  required "ttl" validate_int d = Ok z ->
  required "type" (validate_literal schedule_types) d = Ok ty ->
  default_none "timetable" (validate_list 0 decode_AosTimetableItem) d = Ok tt ->
  decode_AosScheduleRule (JObj d) = Ok (mkAosScheduleRule z ty tt).
Proof.
  intros Hz Hty Htt. unfold decode_AosScheduleRule. simpl.
  now rewrite Hz, Hty, Htt.
Qed.

(** C1, as amended.  The decoder of [AosScheduleRule] relates [type] and
    [timetable] in no way.  For each of the three types, a rule without the
    [timetable] key decodes, with timetable [None]; and a rule whose
    [timetable] is a list of valid items decodes, with that list, whether
    the list is empty or not. *)
Theorem schedule_rule_timetable_unconditional :
  forall (d : dict) (z : Z) (ty : string),
    lookup "ttl" d = Some (JInt z) ->
    lookup "type" d = Some (JStr ty) ->
    In ty schedule_types ->
    (lookup "timetable" d = None ->
       decode_AosScheduleRule (JObj d) = Ok (mkAosScheduleRule z ty None)) /\
    (forall vs items,
       lookup "timetable" d = Some (JArr vs) ->
       validate_items decode_AosTimetableItem 0 vs = Ok items ->
       decode_AosScheduleRule (JObj d)
         = Ok (mkAosScheduleRule z ty (Some items))).
Proof.
  intros d z ty Hz Hty Hin.
  assert (Fz : required "ttl" validate_int d = Ok z).
  { now rewrite (required_present _ _ _ _ Hz). }
  assert (Fty : required "type" (validate_literal schedule_types) d = Ok ty).
  { rewrite (required_present _ _ _ _ Hty), validate_literal_member; auto. }
  split.
  - intros Hnone. apply decode_AosScheduleRule_fields; auto.
    unfold default_none. now rewrite with_default_absent.
  - intros vs items Hsome Hitems. apply decode_AosScheduleRule_fields; auto.
    unfold default_none. rewrite (with_default_present _ _ _ _ _ Hsome).
    now rewrite (validate_list_0 _ _ _ Hitems).
Qed.

(** C10.  [ttl] is a plain [int] with no bound: whatever integer the input
    carries, zero and negative ones included, a rule whose other two fields
    are valid decodes, and the decoded [ttl] is that integer. *)
Theorem schedule_rule_ttl_unbounded :
  forall (d : dict) (z : Z) (ty : string) (tt : option (list AosTimetableItem)),
    lookup "ttl" d = Some (JInt z) ->
    required "type" (validate_literal schedule_types) d = Ok ty ->
    default_none "timetable" (validate_list 0 decode_AosTimetableItem) d = Ok tt ->
    exists r, decode_AosScheduleRule (JObj d) = Ok r /\
              ttl r = z /\ sr_type r = ty /\ timetable r = tt.
Proof.
  intros d z ty tt Hz Hty Htt. exists (mkAosScheduleRule z ty tt).
  split; [|auto].
  apply decode_AosScheduleRule_fields; auto.
  now rewrite (required_present _ _ _ _ Hz).
Qed.

(** C6, as amended.  [dayOfWeek] is a plain [int]: any integer is taken,
    with no range; [timeSlots] must be a non-empty list: an empty list is
    refused with [too_short], and every decoded item has at least one
    slot. *)
Theorem timetable_item_constraints :
  forall d : dict,
    (forall z slots,
       lookup "dayOfWeek" d = Some (JInt z) ->
       required "timeSlots" (validate_list 1 decode_AosTimeSlot) d = Ok slots ->
       decode_AosTimetableItem (JObj d) = Ok (mkAosTimetableItem z slots)) /\
    (lookup "timeSlots" d = Some (JArr []) ->
       is_ok (decode_AosTimetableItem (JObj d)) = false /\
       In (mkError [LKey "timeSlots"] "too_short")
          (errors (decode_AosTimetableItem (JObj d)))) /\
    (forall r, decode_AosTimetableItem (JObj d) = Ok r -> time_slots r <> []).
Proof.
  intros d.
  assert (Hempty : lookup "timeSlots" d = Some (JArr []) ->
            In (mkError [LKey "timeSlots"] "too_short")
               (errors (decode_AosTimetableItem (JObj d)))).
  { intros H. unfold decode_AosTimetableItem. simpl.
    rewrite errors_ap, (required_present _ _ _ _ H). simpl.
    apply in_or_app. right. now left. }
  split; [|split; [split|]].
  - intros z slots Hz Hs. unfold decode_AosTimetableItem. simpl.
    rewrite (required_present _ _ _ _ Hz), Hs. reflexivity.
  - eapply in_errors_not_ok. now apply Hempty.
  - now apply Hempty.
  - intros r H. unfold decode_AosTimetableItem in H. simpl in H.
    fields_inv H. subst. simpl.
    apply required_ok_inv in Hfield. destruct Hfield as (v & _ & Hv).
    apply validate_list_min in Hv. intros Hnil. rewrite Hnil in Hv.
    simpl in Hv. lia.
Qed.

End ScheduleFacts.

(** A rule of type [timetable] with an empty timetable decodes, and so does
    a rule of type [force] that carries a timetable. *)
Lemma schedule_rule_conditional_counterexample :
  decode_AosScheduleRule (lib := Sample.lib)
    (JObj (Sample.rule 3600 "timetable" [("timetable", JArr [])]))
    = Ok (mkAosScheduleRule 3600 "timetable" (Some [])) /\
  decode_AosScheduleRule (lib := Sample.lib)
    (JObj (Sample.rule 3600 "force"
             [("timetable", JArr [Sample.item 1 [Sample.slot]])]))
    = Ok (mkAosScheduleRule 3600 "force"
            (Some [mkAosTimetableItem 1 [Sample.decoded_slot]])).
Proof. split; reflexivity. Qed.

Lemma schedule_rule_timetable_unconditional_witness :
  decode_AosScheduleRule (lib := Sample.lib) (JObj (Sample.rule 60 "trigger" []))
    = Ok (mkAosScheduleRule 60 "trigger" None) /\
  decode_AosScheduleRule (lib := Sample.lib)
    (JObj (Sample.rule 60 "timetable" [("timetable", JArr [])]))
    = Ok (mkAosScheduleRule 60 "timetable" (Some [])).
Proof.
  split.
  - apply (schedule_rule_timetable_unconditional (lib := Sample.lib)
             (Sample.rule 60 "trigger" []) 60 "trigger");
      [reflexivity | reflexivity | simpl; tauto | reflexivity].
  - apply (proj2 (schedule_rule_timetable_unconditional (lib := Sample.lib)
             (Sample.rule 60 "timetable" [("timetable", JArr [])])
             60 "timetable" eq_refl eq_refl
             (or_intror (or_intror (or_introl eq_refl)))) [] []);
      reflexivity.
Defined.

Lemma schedule_rule_ttl_unbounded_witness :
  exists r,
    decode_AosScheduleRule (lib := Sample.lib) (JObj (Sample.rule (-5) "force" []))
      = Ok r /\
    ttl r = -5 /\ sr_type r = "force" /\ timetable r = None.
Proof.
  apply (schedule_rule_ttl_unbounded (lib := Sample.lib)
           (Sample.rule (-5) "force" []) (-5) "force" None); reflexivity.
Defined.

(** Day 8 decodes. *)
Lemma timetable_item_day_counterexample :
  decode_AosTimetableItem (lib := Sample.lib) (Sample.item 8 [Sample.slot])
    = Ok (mkAosTimetableItem 8 [Sample.decoded_slot]) /\
  decode_AosTimetableItem (lib := Sample.lib) (Sample.item 0 [Sample.slot])
    = Ok (mkAosTimetableItem 0 [Sample.decoded_slot]).
Proof. split; reflexivity. Qed.

Lemma timetable_item_constraints_witness :
  decode_AosTimetableItem (lib := Sample.lib)
    (JObj [("dayOfWeek", JInt (-3)); ("timeSlots", JArr [Sample.slot])])
    = Ok (mkAosTimetableItem (-3) [Sample.decoded_slot]) /\
  is_ok (decode_AosTimetableItem (lib := Sample.lib)
           (JObj [("dayOfWeek", JInt 1); ("timeSlots", JArr [])])) = false.
Proof.
  split.
  - apply (proj1 (timetable_item_constraints (lib := Sample.lib)
             [("dayOfWeek", JInt (-3)); ("timeSlots", JArr [Sample.slot])]));
      reflexivity.
  - apply (proj1 (proj2 (timetable_item_constraints (lib := Sample.lib)
             [("dayOfWeek", JInt 1); ("timeSlots", JArr [])]))).
    reflexivity.
Defined.

(* ================================================================== *)
(** * Instances *)
(* ================================================================== *)

Section InstanceFacts.
Context {lib : Library} {ut : UnitTypes}.

Lemma validate_priority_ok_inv v z :
  validate_priority v = Ok z -> 0 <= z < 1000000.
Proof.
  unfold validate_priority. intros H.
  apply bind_ok_inv in H. destruct H as (z0 & _ & H).
  apply bind_ok_inv in H. destruct H as (z1 & H1 & H).
  unfold check_lt in H1. destruct (z0 <? 1000000) eqn:E1; [|discriminate].
  injection H1 as <-.
  unfold check_ge in H. destruct (0 <=? z0) eqn:E2; [|discriminate].
  injection H as <-. lia.
Qed.

Lemma validate_priority_int p :
  validate_priority (JInt p) =
    if p <? 1000000 then if 0 <=? p then Ok p else fail "greater_than_equal"
    else fail "less_than".
Proof.
  unfold validate_priority, check_lt, check_ge. simpl.
  destruct (p <? 1000000); reflexivity.
Qed.

Lemma validate_num_instances_ok_inv v z :
  validate_num_instances v = Ok z -> 0 < z.
Proof.
  unfold validate_num_instances. intros H.
  apply bind_ok_inv in H. destruct H as (z0 & _ & H).
  unfold check_gt in H. destruct (0 <? z0) eqn:E; [|discriminate].
  injection H as <-. lia.
Qed.

Lemma num_instances_field_positive d n :
  with_default "numInstances" 1 validate_num_instances d = Ok n -> 0 < n.
Proof.
  unfold with_default. destruct (lookup "numInstances" d) as [v|].
  - intros H. apply at_loc_ok_inv in H. eauto using validate_num_instances_ok_inv.
  - intros H. injection H as <-. lia.
Qed.

(** C5.  Bounds of [AosDesiredInstanceInfo].  Every decoded record has
    [0 <= priority < 1000000] and [numInstances > 0]; an integer priority
    outside the range fails the decode (so 1000000 fails), one inside it
    decodes when the other fields are valid (so 999999 succeeds);
    [numInstances] 0 fails; and with [numInstances] omitted the decoded
    record has [numInstances] 1. *)
Theorem instance_info_bounds :
  forall d : dict,
    (forall r, decode_AosDesiredInstanceInfo (JObj d) = Ok r ->
       0 <= priority r < 1000000 /\ 0 < num_instances r) /\
    (forall p, lookup "priority" d = Some (JInt p) ->
       ~ (0 <= p < 1000000) ->
       is_ok (decode_AosDesiredInstanceInfo (JObj d)) = false) /\
    (forall p sid subj n lbl,
       lookup "priority" d = Some (JInt p) ->
       0 <= p < 1000000 ->
       TypeServiceServiceIdMandatory "service_id" d = Ok sid ->
       TypeSubjectSubjectIdMandatory "subject_id" d = Ok subj ->
       with_default "numInstances" 1 validate_num_instances d = Ok n ->
       default_none "labels" (validate_list 0 validate_str) d = Ok lbl ->
       decode_AosDesiredInstanceInfo (JObj d)
         = Ok (mkAosDesiredInstanceInfo sid subj p n lbl)) /\
    (lookup "numInstances" d = Some (JInt 0) ->
       is_ok (decode_AosDesiredInstanceInfo (JObj d)) = false) /\
    (lookup "numInstances" d = None ->
       forall r, decode_AosDesiredInstanceInfo (JObj d) = Ok r ->
                 num_instances r = 1).
Proof.
  intros d. unfold decode_AosDesiredInstanceInfo. simpl.
  split; [|split; [|split; [|split]]].
  - intros r H. fields_inv H. subst. simpl. split.
    + apply required_ok_inv in Hfield1. destruct Hfield1 as (v & _ & Hv).
      now apply validate_priority_ok_inv in Hv.
    + eauto using num_instances_field_positive.
  - intros p Hp Hbad. rewrite !is_ok_ap, (required_present _ _ _ _ Hp).
    rewrite is_ok_at_loc, validate_priority_int.
    destruct (p <? 1000000) eqn:E1; [destruct (0 <=? p) eqn:E2|]; simpl;
      try (rewrite ?andb_false_r; reflexivity).
    exfalso. apply Hbad. lia.
  - intros p sid subj n lbl Hp Hrange Hsid Hsubj Hn Hlbl.
    rewrite Hsid, Hsubj, Hn, Hlbl, (required_present _ _ _ _ Hp).
    rewrite validate_priority_int.
    replace (p <? 1000000) with true by (symmetry; apply Z.ltb_lt; lia).
    replace (0 <=? p) with true by (symmetry; apply Z.leb_le; lia).
    reflexivity.
  - intros H0. rewrite !is_ok_ap, (with_default_present _ _ _ _ _ H0). simpl.
    rewrite ?andb_false_r. reflexivity.
  - intros Hnone r H. rewrite (with_default_absent _ _ _ _ Hnone) in H.
    fields_inv H. subst. simpl. congruence.
Qed.

End InstanceFacts.

Lemma instance_info_bounds_witness :
  is_ok (decode_AosDesiredInstanceInfo (lib := Sample.lib) (ut := Sample.ut)
           (JObj (Sample.instance_info [("priority", JInt 1000000)]))) = false /\
  decode_AosDesiredInstanceInfo (lib := Sample.lib) (ut := Sample.ut)
    (JObj (Sample.instance_info [("priority", JInt 999999)]))
    = Ok (mkAosDesiredInstanceInfo (ut := Sample.ut)
            "navigation" "driver" 999999 1 None) /\
  is_ok (decode_AosDesiredInstanceInfo (lib := Sample.lib) (ut := Sample.ut)
           (JObj (Sample.instance_info
                    [("priority", JInt 5); ("numInstances", JInt 0)]))) = false.
Proof.
  split; [|split].
  - apply (proj1 (proj2 (instance_info_bounds (lib := Sample.lib) (ut := Sample.ut)
             (Sample.instance_info [("priority", JInt 1000000)]))) 1000000);
      [reflexivity | lia].
  - apply (proj1 (proj2 (proj2 (instance_info_bounds
             (lib := Sample.lib) (ut := Sample.ut)
             (Sample.instance_info [("priority", JInt 999999)])))));
      [reflexivity | lia | reflexivity | reflexivity | reflexivity | reflexivity].
  - apply (proj1 (proj2 (proj2 (proj2 (instance_info_bounds
             (lib := Sample.lib) (ut := Sample.ut)
             (Sample.instance_info
                [("priority", JInt 5); ("numInstances", JInt 0)])))))).
    reflexivity.
Defined.

(* ================================================================== *)
(** * The header *)
(* ================================================================== *)

Section HeaderFacts.
Context {ut : UnitTypes}.

(** C4.  An [AosUnitHeader] decodes only from an object whose [version]
    equals the integer 6: the integer itself or a float of that value, and
    the decoded version is then the integer 6.  Any other value there, 5 for
    one, fails the decode with an error located at [version]:
    [int_parsing_size] for an integer that does not fit a machine word,
    [literal_error] otherwise.  There is no default, so a missing [version]
    fails too.  With a version equal to 6 and a valid system id the header
    decodes. *)
Theorem header_version_literal :
  forall d : dict,
    (forall h, decode_AosUnitHeader (JObj d) = Ok h ->
       version h = 6 /\
       exists v, lookup "version" d = Some v /\ equals_int v 6 = true /\
         (v = JInt 6 \/ exists f, v = JFloat f /\ float_integer f = Some 6)) /\
    (forall v, lookup "version" d = Some v -> equals_int v 6 = false ->
       is_ok (decode_AosUnitHeader (JObj d)) = false /\
       In (mkError [LKey "version"]
             match v with
             | JInt z => if in_int64 z then "literal_error"
                         else "int_parsing_size"
             | _ => "literal_error"
             end)
          (errors (decode_AosUnitHeader (JObj d)))) /\
    (lookup "version" d = None ->
       is_ok (decode_AosUnitHeader (JObj d)) = false) /\
    (forall v sid, lookup "version" d = Some v -> equals_int v 6 = true ->
       TypeAosSystemIdMandatory "system_id" d = Ok sid ->
       decode_AosUnitHeader (JObj d) = Ok (mkAosUnitHeader 6 sid)).
Proof.
  intros d. unfold decode_AosUnitHeader. simpl.
  split; [|split; [|split]].
  - intros h H. fields_inv H. subst. simpl.
    apply required_ok_inv in Hfield0. destruct Hfield0 as (v & Hl & Hv).
    apply validate_literal_int_ok_inv in Hv. destruct Hv as [-> Hv].
    split; [reflexivity|]. exists v. auto using equals_int_6_inv.
  - intros v H Hne.
    assert (He : In (mkError [LKey "version"]
                       match v with
                       | JInt z => if in_int64 z then "literal_error"
                                   else "int_parsing_size"
                       | _ => "literal_error"
                       end)
                    (errors (at_loc (LKey "version") (validate_literal_int 6 v)))).
    { rewrite (validate_literal_int_other _ _ Hne).
      destruct v as [| b | z0 | f | s | l | m]; try (now left).
      destruct (in_int64 z0); now left. }
    split.
    + rewrite is_ok_ap, is_ok_rmap, (required_present _ _ _ _ H), is_ok_at_loc.
      rewrite (validate_literal_int_other _ _ Hne).
      destruct v as [| b | z0 | f | s | l | m]; try reflexivity.
      destruct (in_int64 z0); reflexivity.
    + rewrite errors_ap, errors_rmap, (required_present _ _ _ _ H).
      apply in_or_app. left. exact He.
  - intros Hnone. rewrite is_ok_ap, is_ok_rmap, (required_absent _ _ _ Hnone).
    reflexivity.
  - intros v sid Hv Heq Hsid.
    rewrite (required_present _ _ _ _ Hv), Hsid.
    rewrite (validate_literal_int_equal 6 v eq_refl Heq). reflexivity.
Qed.

End HeaderFacts.

Lemma header_version_literal_witness :
  is_ok (decode_AosUnitHeader (ut := Sample.ut)
           (JObj (Sample.header (JInt 5)))) = false /\
  In (mkError [LKey "version"] "int_parsing_size")
     (errors (decode_AosUnitHeader (ut := Sample.ut)
                (JObj (Sample.header (JInt (2 ^ 63)))))) /\
  decode_AosUnitHeader (ut := Sample.ut)
    (JObj (Sample.header (JInt 6)))
    = Ok (mkAosUnitHeader (ut := Sample.ut) 6 "unit-1") /\
  decode_AosUnitHeader (ut := Sample.ut)
    (JObj (Sample.header (JFloat 6%float)))
    = Ok (mkAosUnitHeader (ut := Sample.ut) 6 "unit-1").
Proof.
  split; [|split; [|split]].
  - apply (proj1 (proj1 (proj2 (header_version_literal
             (ut := Sample.ut) (Sample.header (JInt 5)))) (JInt 5)
             eq_refl eq_refl)).
  - apply (proj2 (proj1 (proj2 (header_version_literal
             (ut := Sample.ut) (Sample.header (JInt (2 ^ 63)))))
             (JInt (2 ^ 63)) eq_refl eq_refl)).
  - apply (proj2 (proj2 (proj2 (header_version_literal
             (ut := Sample.ut) (Sample.header (JInt 6))))) (JInt 6));
      reflexivity.
  - apply (proj2 (proj2 (proj2 (header_version_literal
             (ut := Sample.ut) (Sample.header (JFloat 6%float)))))
             (JFloat 6%float));
      reflexivity.
Defined.

(* ================================================================== *)
(** * State messages *)
(* ================================================================== *)

Section StateFacts.
Context {ut : UnitTypes}.

Lemma validate_literal_other tag v :
  v <> JStr tag -> validate_literal [tag] v = fail "literal_error".
Proof.
  intros Hne. apply validate_literal_not_member.
  intros s [<- | []]. exact Hne.
Qed.

Lemma decode_state_fields_wrong_tag tag d v :
  lookup "messageType" d = Some v -> v <> JStr tag ->
  is_ok (decode_state_fields tag d) = false.
Proof.
  intros Hl Hne. unfold decode_state_fields.
  rewrite !is_ok_ap, is_ok_rmap, (required_present _ _ _ _ Hl).
  rewrite validate_literal_other by assumption. reflexivity.
Qed.

(** A body that decodes under one tag has, under any other tag, the
    discriminator as its only error: the five payload fields are read the
    same way by both classes. *)
Lemma decode_state_fields_retag tag tag' d r :
  decode_state_fields tag d = Ok r ->
  tag <> tag' ->
  decode_state_fields tag' d = Err [mkError [LKey "messageType"] "literal_error"].
Proof.
  unfold decode_state_fields. intros H Hne.
  fields_inv H. subst.
  apply required_ok_inv in Hfield4. destruct Hfield4 as (v & Hl & Hv).
  apply validate_literal_ok_inv in Hv. destruct Hv as [-> Hin].
  destruct Hin as [<- | []].
  rewrite Hfield3, Hfield2, Hfield1, Hfield0, Hfield.
  rewrite (required_present _ _ _ _ Hl).
  rewrite validate_literal_other by congruence. reflexivity.
Qed.

(** C3.  An object whose [messageType] is ["newState"] never decodes as
    [AosUpdateState], and one whose [messageType] is ["updateState"] never
    decodes as [AosNewState].  This holds when every other field is valid
    for both classes: a body that decodes as one of them fails as the other
    with the discriminator as its only error. *)
Theorem state_discriminator_exclusive :
  forall d : dict,
    (lookup "messageType" d = Some (JStr "newState") ->
       is_ok (decode_AosUpdateState (JObj d)) = false) /\
    (lookup "messageType" d = Some (JStr "updateState") ->
       is_ok (decode_AosNewState (JObj d)) = false) /\
    (forall r, decode_AosNewState (JObj d) = Ok r ->
       decode_AosUpdateState (JObj d)
         = Err [mkError [LKey "messageType"] "literal_error"]) /\
    (forall r, decode_AosUpdateState (JObj d) = Ok r ->
       decode_AosNewState (JObj d)
         = Err [mkError [LKey "messageType"] "literal_error"]).
Proof.
  intros d. unfold decode_AosUpdateState, decode_AosNewState. simpl.
  split; [|split; [|split]].
  - intros H. eapply decode_state_fields_wrong_tag; [exact H | discriminate].
  - intros H. eapply decode_state_fields_wrong_tag; [exact H | discriminate].
  - intros r H. eapply decode_state_fields_retag; [exact H | discriminate].
  - intros r H. eapply decode_state_fields_retag; [exact H | discriminate].
Qed.

End StateFacts.

Lemma state_discriminator_exclusive_witness :
  is_ok (decode_AosUpdateState (ut := Sample.ut)
           (JObj (Sample.state_message "newState"))) = false /\
  is_ok (decode_AosNewState (ut := Sample.ut)
           (JObj (Sample.state_message "updateState"))) = false /\
  decode_AosUpdateState (ut := Sample.ut) (JObj (Sample.state_message "newState"))
    = Err [mkError [LKey "messageType"] "literal_error"].
Proof.
  split; [|split].
  - apply (proj1 (state_discriminator_exclusive (ut := Sample.ut)
             (Sample.state_message "newState"))).
    reflexivity.
  - apply (proj1 (proj2 (state_discriminator_exclusive (ut := Sample.ut)
             (Sample.state_message "updateState")))).
    reflexivity.
  - apply (proj1 (proj2 (proj2 (state_discriminator_exclusive (ut := Sample.ut)
             (Sample.state_message "newState"))))
             (mkAosNewState (ut := Sample.ut)
                "newState" "navigation" "driver" 0 "c0ffee" "{}")).
    reflexivity.
Defined.

(* ================================================================== *)
(** * Signatures *)
(* ================================================================== *)

Section SignFacts.
Context {lib : Library}.

(** C8.  [alg] is taken from the closed set of ["RSA/SHA256"] and
    ["EC/SHA256"] only.  Any other value under [alg], ["RSA/SHA512"] for
    one, fails the decode, and the errors include a [literal_error] located
    at [alg]; a decoded signature has one of the two algorithms, the one the
    input carried; and with one of the two and the other fields valid the
    signature decodes. *)
Theorem sign_alg_closed_set :
  forall d : dict,
    (forall v, lookup "alg" d = Some v ->
       v <> JStr "RSA/SHA256" -> v <> JStr "EC/SHA256" ->
       is_ok (decode_AosSign (JObj d)) = false /\
       In (mkError [LKey "alg"] "literal_error")
          (errors (decode_AosSign (JObj d)))) /\
    (forall r, decode_AosSign (JObj d) = Ok r ->
       (alg r = "RSA/SHA256" \/ alg r = "EC/SHA256") /\
       lookup "alg" d = Some (JStr (alg r))) /\
    (forall s cn val ts ocsp,
       lookup "alg" d = Some (JStr s) ->
       s = "RSA/SHA256" \/ s = "EC/SHA256" ->
       required "chainName" validate_str d = Ok cn ->
       required "value" validate_Base64Bytes d = Ok val ->
       required "trustedTimestamp" validate_datetime d = Ok ts ->
       default_none "ocspValues" validate_Base64Bytes d = Ok ocsp ->
       decode_AosSign (JObj d) = Ok (mkAosSign cn s val ts ocsp)).
Proof.
  intros d. unfold decode_AosSign. simpl.
  assert (Hbad : forall v, lookup "alg" d = Some v ->
            v <> JStr "RSA/SHA256" -> v <> JStr "EC/SHA256" ->
            required "alg" (validate_literal sign_algs) d
              = Err [mkError [LKey "alg"] "literal_error"]).
  { intros v Hl H1 H2. rewrite (required_present _ _ _ _ Hl).
    rewrite validate_literal_not_member; [reflexivity|].
    intros s [<- | [<- | []]]; assumption. }
  split; [|split].
  - intros v Hl H1 H2. split.
    + rewrite !is_ok_ap, (Hbad v) by assumption. simpl.
      rewrite ?andb_false_r. reflexivity.
    + rewrite !errors_ap, (Hbad v) by assumption.
      apply in_or_app. left. apply in_or_app. left. apply in_or_app. left.
      apply in_or_app. right. now left.
  - intros r H. fields_inv H. subst. simpl.
    apply required_ok_inv in Hfield2. destruct Hfield2 as (v & Hl & Hv).
    apply validate_literal_ok_inv in Hv. destruct Hv as [-> Hin].
    split; [|exact Hl]. destruct Hin as [<- | [<- | []]]; auto.
  - intros s cn val ts ocsp Hl Hs Hcn Hval Hts Hocsp.
    rewrite Hcn, Hval, Hts, Hocsp, (required_present _ _ _ _ Hl).
    rewrite validate_literal_member; [reflexivity|].
    destruct Hs as [-> | ->]; simpl; auto.
Qed.

End SignFacts.

Lemma sign_alg_closed_set_witness :
  In (mkError [LKey "alg"] "literal_error")
     (errors (decode_AosSign (lib := Sample.lib)
                (JObj (Sample.sign "RSA/SHA512")))) /\
  decode_AosSign (lib := Sample.lib) (JObj (Sample.sign "EC/SHA256"))
    = Ok (mkAosSign (lib := Sample.lib) "online" "EC/SHA256"
            (list_byte_of_string "sig") "2024-01-01T00:00:00Z" None).
Proof.
  split.
  - apply (proj1 (sign_alg_closed_set (lib := Sample.lib)
             (Sample.sign "RSA/SHA512")) (JStr "RSA/SHA512"));
      [reflexivity | discriminate | discriminate].
  - apply (proj2 (proj2 (sign_alg_closed_set (lib := Sample.lib)
             (Sample.sign "EC/SHA256"))));
      [reflexivity | right; reflexivity | reflexivity | reflexivity
      | reflexivity | reflexivity].
Defined.

(* ================================================================== *)
(** * The desiredStatus message *)
(* ================================================================== *)

Section DesiredFacts.
Context {lib : Library} {ut : UnitTypes}.

(** C9.  The discriminator is the only required field of [desiredStatus]:
    the object with [messageType] alone decodes, and every payload field of
    the record is then [None]; without [messageType] the decode reports it
    missing. *)
Theorem desired_status_only_message_type :
  decode_AosDesiredStatus desired_only = Ok no_change /\
  (forall d : dict, lookup "messageType" d = None ->
     In (mkError [LKey "messageType"] "missing")
        (errors (decode_AosDesiredStatus (JObj d)))).
Proof.
  split; [reflexivity|].
  intros d Hnone. unfold decode_AosDesiredStatus. simpl.
  rewrite !errors_ap, errors_rmap, (required_absent _ _ _ Hnone). simpl.
  now left.
Qed.

(** C2, on the code.  For each of the seven list fields of
    [desiredStatus]: with the field omitted the message decodes and the
    category reads "no change"; with the field an empty list the message
    decodes and the category reads "replace with no entries"; with the
    field [null] the message does not decode: the annotation is a list, not
    an optional list, and [null] is refused with [list_type]. *)
Theorem desired_status_list_field_inputs :
  Forall (fun f =>
    (exists m, decode_AosDesiredStatus desired_only = Ok m /\
               category f m = Some NoChange) /\
    (exists m, decode_AosDesiredStatus (desired_with f (JArr [])) = Ok m /\
               category f m = Some (ReplaceWith 0)) /\
    decode_AosDesiredStatus (desired_with f JNull)
      = Err [mkError [LKey f] "list_type"]) list_fields.
Proof.
  unfold list_fields.
  repeat (apply Forall_cons;
          [ split; [eexists; split; reflexivity
                   | split; [eexists; split; reflexivity | reflexivity]] | ]).
  apply Forall_nil.
Qed.

End DesiredFacts.

Lemma desired_status_only_message_type_witness :
  In (mkError [LKey "messageType"] "missing")
     (errors (decode_AosDesiredStatus (lib := Sample.lib) (ut := Sample.ut)
                (JObj [("nodes", JArr [])]))).
Proof.
  apply (proj2 (desired_status_only_message_type (lib := Sample.lib)
           (ut := Sample.ut)) [("nodes", JArr [])]).
  reflexivity.
Defined.

(* ================================================================== *)
(** * Base64 round trip *)
(* ================================================================== *)

Lemma byte_val_range x : 0 <= byte_val x < 256.
Proof.
  unfold byte_val. pose proof (Byte.to_N_bounded x). lia.
Qed.

Lemma byte_of_val_byte_val x : byte_of_val (byte_val x) = Some x.
Proof.
  unfold byte_of_val, byte_val. rewrite N2Z.id. apply Byte.of_to_N.
Qed.

Lemma sextets_ok : forallb sextet_ok (seq 0 64) = true.
Proof. vm_compute. reflexivity. Qed.

Lemma sextet_ok_at n : 0 <= n < 64 -> sextet_ok (Z.to_nat n) = true.
Proof.
  intros Hn. pose proof sextets_ok as H.
  rewrite forallb_forall in H. apply H. apply in_seq. lia.
Qed.

Lemma b64_index_char n : 0 <= n < 64 -> b64_index (b64_char n) = Some n.
Proof.
  intros Hn. pose proof (sextet_ok_at n Hn) as H. unfold sextet_ok in H.
  rewrite Z2Nat.id in H by lia.
  destruct (b64_index (b64_char n)) as [m|]; [|discriminate].
  apply andb_prop in H. destruct H as [H _]. apply Z.eqb_eq in H. now subst.
Qed.

Lemma b64_char_not_pad n : 0 <= n < 64 -> Byte.eqb (b64_char n) b64_pad = false.
Proof.
  intros Hn. pose proof (sextet_ok_at n Hn) as H. unfold sextet_ok in H.
  rewrite Z2Nat.id in H by lia.
  destruct (b64_index (b64_char n)); [|discriminate].
  apply andb_prop in H. destruct H as [_ H]. now apply negb_true_iff in H.
Qed.

(** Induction on a byte string three bytes at a time, the way the encoder
    consumes it. *)
Lemma bytes_ind3 (P : bytes -> Prop) :
  P [] -> (forall x, P [x]) -> (forall x y, P [x; y]) ->
  (forall x y z rest, P rest -> P (x :: y :: z :: rest)) ->
  forall bs, P bs.
Proof.
  intros H0 H1 H2 H3 bs.
  enough (H : P bs /\ (forall x, P (x :: bs)) /\ (forall x y, P (x :: y :: bs)))
    by apply H.
  induction bs as [|b bs (IH0 & IH1 & IH2)].
  - auto.
  - repeat split; auto.
Qed.

Ltac sextet_range :=
  match goal with
  | |- 0 <= _ < 64 => Z.div_mod_to_equations; lia
  end.

Ltac regroup v :=
  match goal with
  | |- context [byte_of_val ?e] =>
      lazymatch e with
      | byte_val _ => fail
      | _ => replace e with (byte_val v) by (Z.div_mod_to_equations; lia)
      end
  end.

Lemma b64decode_b64encode bs : b64decode (b64encode bs) = Some bs.
Proof.
  induction bs as [| x | x y | x y z rest IH] using bytes_ind3.
  - reflexivity.
  - pose proof (byte_val_range x) as Hx.
    cbn [b64encode b64decode obind].
    rewrite !b64_index_char by sextet_range. cbn [obind].
    regroup x. rewrite byte_of_val_byte_val. reflexivity.
  - pose proof (byte_val_range x) as Hx. pose proof (byte_val_range y) as Hy.
    cbn [b64encode b64decode obind].
    rewrite !b64_index_char by sextet_range. cbn [obind].
    regroup x. rewrite byte_of_val_byte_val. cbn [obind].
    replace (Byte.eqb b64_pad b64_pad) with true by reflexivity.
    rewrite b64_char_not_pad by sextet_range.
    regroup y. rewrite byte_of_val_byte_val. reflexivity.
  - pose proof (byte_val_range x) as Hx. pose proof (byte_val_range y) as Hy.
    pose proof (byte_val_range z) as Hz.
    cbn [b64encode b64decode obind]. fold b64decode.
    rewrite !b64_index_char by sextet_range. cbn [obind].
    regroup x. rewrite byte_of_val_byte_val. cbn [obind].
    rewrite b64_char_not_pad by sextet_range.
    regroup y. rewrite byte_of_val_byte_val. cbn [obind].
    regroup z. rewrite byte_of_val_byte_val. cbn [obind].
    rewrite IH. reflexivity.
Qed.

(** The encoder agrees with [base64.b64encode] on known vectors. *)
Example b64encode_vectors :
  string_of_list_byte (b64encode (list_byte_of_string "hello")) = "aGVsbG8=" /\
  string_of_list_byte (b64encode (list_byte_of_string "Man is")) = "TWFuIGlz" /\
  string_of_list_byte (b64encode [xff; xfe; x00; x01]) = "//4AAQ==".
Proof. repeat split; reflexivity. Qed.

(* ================================================================== *)
(** * Secrets on the wire and in diagnostics *)
(* ================================================================== *)

Lemma prefix_length n h :
  String.prefix n h = true -> (String.length n <= String.length h)%nat.
Proof.
  revert n. induction h as [|b h IH]; intros [|a n]; simpl;
    try discriminate; try lia.
  destruct (ascii_dec a b); [|discriminate].
  intros H. apply IH in H. lia.
Qed.

Lemma contains_length n h :
  contains n h = true -> (String.length n <= String.length h)%nat.
Proof.
  induction h as [|b h IH]; cbn [contains].
  - rewrite orb_false_r. apply prefix_length.
  - intros H. apply orb_prop in H. destruct H as [H | H].
    + now apply prefix_length in H.
    + apply IH in H. simpl. lia.
Qed.

Lemma prefix_chars n h c :
  String.prefix n h = true ->
  In c (list_ascii_of_string n) -> In c (list_ascii_of_string h).
Proof.
  revert n. induction h as [|b h IH]; intros [|a n]; simpl;
    try discriminate; try tauto.
  destruct (ascii_dec a b) as [-> | ]; [|discriminate].
  intros H [-> | Hin]; [now left | right; eauto].
Qed.

Lemma contains_chars n h c :
  contains n h = true ->
  In c (list_ascii_of_string n) -> In c (list_ascii_of_string h).
Proof.
  induction h as [|b h IH]; cbn [contains].
  - rewrite orb_false_r. apply prefix_chars.
  - intros H Hin. apply orb_prop in H. destruct H as [H | H].
    + exact (prefix_chars _ _ _ H Hin).
    + simpl. right. now apply IH.
Qed.

(** A text that is longer than another, or has a character the other has
    not, does not occur in it. *)
Lemma not_contained k hay :
  (String.length hay < String.length k)%nat \/ foreign_to k hay = true ->
  contains k hay = false.
Proof.
  intros H. destruct (contains k hay) eqn:E; [|reflexivity]. exfalso.
  destruct H as [H | H].
  - apply contains_length in E. lia.
  - unfold foreign_to in H. apply existsb_exists in H.
    destruct H as (c & Hc & Hnot).
    apply (contains_chars _ _ c E) in Hc.
    apply negb_true_iff in Hnot.
    assert (Hyes : existsb (Ascii.eqb c) (list_ascii_of_string hay) = true).
    { apply existsb_exists. exists c. split; [exact Hc | apply Ascii.eqb_refl]. }
    congruence.
Qed.

Lemma length_string_of_list_byte (l : bytes) :
  String.length (string_of_list_byte l) = List.length l.
Proof.
  unfold string_of_list_byte.
  induction l as [|x l IH]; simpl; [reflexivity | now rewrite IH].
Qed.

Lemma repr_AosSensitiveBytes_by_emptiness b b' :
  (b = [] <-> b' = []) ->
  repr_AosSensitiveBytes (mkSensitive b) = repr_AosSensitiveBytes (mkSensitive b').
Proof.
  unfold repr_AosSensitiveBytes. simpl.
  destruct b, b'; intros [H1 H2]; try reflexivity.
  - discriminate H1; reflexivity.
  - discriminate H2; reflexivity.
Qed.

Section RenderingFacts.
Context {lib : Library}.

(** C7.  For every [AosDecryptionInfo], under either naming of the keys,
    the JSON-mode dump carries [block_key] and [block_iv] as base64 text
    that decodes back to exactly the secret bytes.  In the diagnostic
    rendering of the record the two fields are shown masked: the rendering
    is the same whatever bytes the key and the IV hold (only whether there
    are any shows), and what is shown for a field does not contain its
    bytes when these are longer than the mask or have a byte that the mask
    has not. *)
Theorem decryption_info_wire_and_redaction :
  forall (r : AosDecryptionInfo) (by_alias : bool),
    wire_secret by_alias "block_key" "blockKey" r
      = Some (get_secret_value (block_key r)) /\
    wire_secret by_alias "block_iv" "blockIv" r
      = Some (get_secret_value (block_iv r)) /\
    (forall iv key iv' key',
       (iv = [] <-> iv' = []) -> (key = [] <-> key' = []) ->
       repr_AosDecryptionInfo (with_secrets iv key r)
         = repr_AosDecryptionInfo (with_secrets iv' key' r)) /\
    (forall s, s = block_key r \/ s = block_iv r ->
       get_secret_value s <> [] ->
       repr_AosSensitiveBytes s = masked /\
       ((String.length masked < List.length (get_secret_value s))%nat \/
        foreign_to (string_of_list_byte (get_secret_value s)) masked = true ->
        contains (string_of_list_byte (get_secret_value s))
          (repr_AosSensitiveBytes s) = false)).
Proof.
  intros r by_alias. split; [|split; [|split]].
  - unfold wire_secret, dump_json_AosDecryptionInfo, ser_json_bytes, dump_secret.
    destruct by_alias; simpl;
      rewrite list_byte_of_string_of_list_byte; apply b64decode_b64encode.
  - unfold wire_secret, dump_json_AosDecryptionInfo, ser_json_bytes, dump_secret.
    destruct by_alias; simpl;
      rewrite list_byte_of_string_of_list_byte; apply b64decode_b64encode.
  - intros iv key iv' key' Hiv Hkey.
    unfold repr_AosDecryptionInfo, with_secrets. simpl.
    rewrite (repr_AosSensitiveBytes_by_emptiness iv iv' Hiv).
    rewrite (repr_AosSensitiveBytes_by_emptiness key key' Hkey).
    reflexivity.
  - intros s _ Hne.
    assert (Hm : repr_AosSensitiveBytes s = masked).
    { unfold repr_AosSensitiveBytes.
      destruct (get_secret_value s); [contradiction | reflexivity]. }
    split; [exact Hm|]. rewrite Hm. intros H. apply not_contained.
    destruct H as [H | H]; [left | now right].
    rewrite length_string_of_list_byte. exact H.
Qed.

End RenderingFacts.

Lemma decryption_info_wire_and_redaction_witness :
  repr_AosDecryptionInfo (lib := Sample.lib)
    (with_secrets (list_byte_of_string "iv") (list_byte_of_string "key")
       Sample.decoded_info)
  = repr_AosDecryptionInfo (lib := Sample.lib)
      (with_secrets (list_byte_of_string "other iv")
         (list_byte_of_string "other key") Sample.decoded_info) /\
  contains Sample.key32
    (repr_AosSensitiveBytes (block_key Sample.decoded_info)) = false.
Proof.
  split.
  - apply (proj1 (proj2 (proj2 (decryption_info_wire_and_redaction
             (lib := Sample.lib) Sample.decoded_info true))));
      split; discriminate.
  - apply (proj2 (proj2 (proj2 (decryption_info_wire_and_redaction
             (lib := Sample.lib) Sample.decoded_info true)))
             (block_key Sample.decoded_info)
             (or_introl eq_refl)).
    + discriminate.
    + left. vm_compute. lia.
Defined.

(* ================================================================== *)
(** * Lists, optional fields and unknown members *)
(* ================================================================== *)

Lemma lookup_cons_other a k v d :
  a <> k -> lookup a ((k, v) :: d) = lookup a d.
Proof.
  intros Hne. simpl. destruct (lookup a d); [reflexivity|].
  apply String.eqb_neq in Hne. now rewrite Hne.
Qed.

Lemma default_none_ok_inv {A} alias (val : json -> result A) d o :
  default_none alias val d = Ok o ->
  (lookup alias d = None /\ o = None) \/
  (exists v a, lookup alias d = Some v /\ val v = Ok a /\ o = Some a).
Proof.
  unfold default_none, with_default.
  destruct (lookup alias d) as [v|].
  - intros H. apply at_loc_ok_inv in H. apply rmap_ok_inv in H.
    destruct H as (a & Ha & ->). right. now exists v, a.
  - intros H. injection H as <-. now left.
Qed.

(** A list decodes item by item: as many results as items, in the same
    order. *)
Lemma validate_items_Forall2 {A} (item : json -> result A) vs :
  forall i out,
    validate_items item i vs = Ok out ->
    Forall2 (fun v a => item v = Ok a) vs out.
Proof.
  induction vs as [|v vs IH]; intros i out H; simpl in H.
  - injection H as <-. constructor.
  - apply ap_ok_inv in H. destruct H as (f & l & Hf & Hl & ->).
    apply rmap_ok_inv in Hf. destruct Hf as (a & Ha & ->).
    apply at_loc_ok_inv in Ha. constructor; eauto.
Qed.

Lemma validate_list_ok_inv {A} n (item : json -> result A) v out :
  validate_list n item v = Ok out ->
  exists vs, v = JArr vs /\ Forall2 (fun x a => item x = Ok a) vs out.
Proof.
  destruct v as [| | | | | vs |]; try discriminate. unfold validate_list.
  intros H. apply bind_ok_inv in H. destruct H as (l & Hl & H). cbv beta in H.
  destruct (List.length l <? n)%nat; [discriminate|]. injection H as <-.
  exists vs. split; [reflexivity|]. eauto using validate_items_Forall2.
Qed.

(** An error of the item at index [i] is reported under that index. *)
Lemma validate_items_error_at {A} (item : json -> result A) vs :
  forall k i v e,
    nth_error vs i = Some v ->
    In e (errors (item v)) ->
    In (push_loc (LIdx (k + i)) e) (errors (validate_items item k vs)).
Proof.
  induction vs as [|x vs IH]; intros k i v e Hnth He.
  - destruct i; discriminate.
  - simpl. rewrite errors_ap, errors_rmap, errors_at_loc.
    apply in_or_app. destruct i as [|i]; simpl in Hnth.
    + injection Hnth as ->. left. rewrite Nat.add_0_r. now apply in_map.
    + right. replace (k + S i)%nat with (S k + i)%nat by lia. eauto.
Qed.

Lemma validate_list_error_at {A} n (item : json -> result A) vs i v e :
  nth_error vs i = Some v ->
  In e (errors (item v)) ->
  In (push_loc (LIdx i) e) (errors (validate_list n item (JArr vs))).
Proof.
  intros Hnth He.
  pose proof (validate_items_error_at item vs 0 i v e Hnth He) as H.
  unfold validate_list. simpl in H.
  destruct (validate_items item 0 vs) as [out | es]; simpl in *; tauto.
Qed.

Lemma default_none_error {A} alias (val : json -> result A) d v e :
  lookup alias d = Some v ->
  In e (errors (val v)) ->
  In (push_loc (LKey alias) e) (errors (default_none alias val d)).
Proof.
  intros Hl He. unfold default_none.
  rewrite (with_default_present _ _ _ _ _ Hl), errors_at_loc, errors_rmap.
  now apply in_map.
Qed.

Lemma required_error {A} alias (val : json -> result A) d v e :
  lookup alias d = Some v ->
  In e (errors (val v)) ->
  In (push_loc (LKey alias) e) (errors (required alias val d)).
Proof.
  intros Hl He. rewrite (required_present _ _ _ _ Hl), errors_at_loc.
  now apply in_map.
Qed.

Lemma validate_items_strings fps : forall i,
  validate_items validate_str i (map JStr fps) = Ok fps.
Proof.
  induction fps as [|s fps IH]; intros i; simpl; [reflexivity|].
  now rewrite IH.
Qed.

Lemma lookup_insert_other a k v (d1 d2 : dict) :
  a <> k -> lookup a (d1 ++ (k, v) :: d2)%list = lookup a (d1 ++ d2)%list.
Proof.
  intros Hne. induction d1 as [|[k' v'] d1 IH]; simpl.
  - destruct (lookup a d2); [reflexivity|].
    apply String.eqb_neq in Hne. now rewrite Hne.
  - now rewrite IH.
Qed.

Lemma default_none_list_inv {A} alias (item : json -> result A) d o vs :
  default_none alias (validate_list 0 item) d = Ok o ->
  lookup alias d = Some (JArr vs) ->
  exists l, o = Some l /\ Forall2 (fun v a => item v = Ok a) vs l.
Proof.
  intros H Hl. apply default_none_ok_inv in H.
  destruct H as [[Hnone _] | (v & l & Hv & Hval & ->)]; [congruence|].
  rewrite Hl in Hv. injection Hv as <-.
  apply validate_list_ok_inv in Hval. destruct Hval as (vs' & E & HF).
  injection E as <-. now exists l.
Qed.

Lemma default_none_list_items {A} alias (item : json -> result A) d l :
  default_none alias (validate_list 0 item) d = Ok (Some l) ->
  Forall (fun a => exists v, item v = Ok a) l.
Proof.
  intros H. apply default_none_ok_inv in H.
  destruct H as [[_ E] | (v & l' & _ & Hval & E)]; [discriminate|].
  injection E as <-. apply validate_list_ok_inv in Hval.
  destruct Hval as (vs & _ & HF).
  induction HF; constructor; eauto.
Qed.

Ltac find_error :=
  lazymatch goal with
  | |- In _ (_ ++ _)%list =>
      apply in_or_app; first [left; find_error | right; find_error]
  | |- In _ (_ :: _) => first [now left | right; find_error]
  | |- _ \/ _ => first [left; reflexivity | right; find_error]
  | |- In _ _ => first [eassumption | now left]
  end.

(* ================================================================== *)
(** * More on the desiredStatus message *)
(* ================================================================== *)

Section DesiredMore.
Context {lib : Library} {ut : UnitTypes}.

(** X5.  A member under a key that is not the key of a field changes
    nothing, wherever it stands in the object. *)
Theorem desired_status_ignores_unknown_members :
  forall (d1 d2 : dict) (k : string) (v : json),
    ~ In k desired_aliases ->
    decode_AosDesiredStatus (JObj (d1 ++ (k, v) :: d2)%list)
      = decode_AosDesiredStatus (JObj (d1 ++ d2)%list).
Proof.
  intros d1 d2 k v Hk.
  assert (Hother : forall a, In a desired_aliases ->
            lookup a (d1 ++ (k, v) :: d2)%list = lookup a (d1 ++ d2)%list).
  { intros a Ha. apply lookup_insert_other. intros ->. contradiction. }
  unfold decode_AosDesiredStatus. simpl.
  unfold default_none, with_default, required.
  rewrite !Hother by (unfold desired_aliases; simpl; tauto).
  reflexivity.
Qed.

Lemma decode_AosDesiredInstanceInfo_ok_bounds v r :
  decode_AosDesiredInstanceInfo v = Ok r ->
  0 <= priority r < 1000000 /\ 0 < num_instances r.
Proof.
  unfold decode_AosDesiredInstanceInfo. intros H.
  apply bind_ok_inv in H. destruct H as (d & _ & H). cbv beta in H.
  fields_inv H. subst. simpl. split.
  - apply required_ok_inv in Hfield1. destruct Hfield1 as (x & _ & Hx).
    now apply validate_priority_ok_inv in Hx.
  - eauto using num_instances_field_positive.
Qed.

Lemma decode_AosTimetableItem_ok_slots v r :
  decode_AosTimetableItem v = Ok r -> time_slots r <> [].
Proof.
  unfold decode_AosTimetableItem. intros H.
  apply bind_ok_inv in H. destruct H as (d & _ & H). cbv beta in H.
  fields_inv H. subst. simpl.
  apply required_ok_inv in Hfield. destruct Hfield as (x & _ & Hx).
  apply validate_list_min in Hx. intros Hnil. rewrite Hnil in Hx.
  simpl in Hx. lia.
Qed.

Lemma decode_AosScheduleRule_ok_inv v r :
  decode_AosScheduleRule v = Ok r ->
  In (sr_type r) schedule_types /\
  forall items, timetable r = Some items ->
    Forall (fun it => time_slots it <> []) items.
Proof.
  unfold decode_AosScheduleRule. intros H.
  apply bind_ok_inv in H. destruct H as (d & _ & H). cbv beta in H.
  fields_inv H. subst. simpl. split.
  - apply required_ok_inv in Hfield0. destruct Hfield0 as (x & _ & Hx).
    now apply validate_literal_ok_inv in Hx.
  - intros items ->. apply default_none_list_items in Hfield.
    eapply Forall_impl; [|exact Hfield].
    intros it (x & Hx). eauto using decode_AosTimetableItem_ok_slots.
Qed.

(** X6.  The list categories are decoded item by item.  For each of the
    seven list fields, when the message decodes and the field is an array,
    the record holds one decoded entry per item, in the order of the
    array. *)
Theorem desired_status_lists_elementwise :
  forall (d : dict) (m : AosDesiredStatus),
    decode_AosDesiredStatus (JObj d) = Ok m ->
    (forall vs, lookup "nodes" d = Some (JArr vs) ->
       exists l, nodes m = Some l /\
         Forall2 (fun v a => decode_AosNodeDesiredState v = Ok a) vs l) /\
    (forall vs, lookup "components" d = Some (JArr vs) ->
       exists l, components m = Some l /\
         Forall2 (fun v a => decode_AosDesiredComponentInfo v = Ok a) vs l) /\
    (forall vs, lookup "layers" d = Some (JArr vs) ->
       exists l, layers m = Some l /\
         Forall2 (fun v a => decode_AosDesiredLayerInfo v = Ok a) vs l) /\
    (forall vs, lookup "services" d = Some (JArr vs) ->
       exists l, services m = Some l /\
         Forall2 (fun v a => decode_AosDesiredServiceInfo v = Ok a) vs l) /\
    (forall vs, lookup "instances" d = Some (JArr vs) ->
       exists l, instances m = Some l /\
         Forall2 (fun v a => decode_AosDesiredInstanceInfo v = Ok a) vs l) /\
    (forall vs, lookup "certificates" d = Some (JArr vs) ->
       exists l, certificates m = Some l /\
         Forall2 (fun v a => decode_AosCertificateInfo v = Ok a) vs l) /\
    (forall vs, lookup "certificateChains" d = Some (JArr vs) ->
       exists l, certificate_chains m = Some l /\
         Forall2 (fun v a => decode_AosCertificateChainInfo v = Ok a) vs l).
Proof.
  intros d m H. unfold decode_AosDesiredStatus in H. simpl in H.
  fields_inv H. subst. simpl.
  repeat split; intros vs Hl;
    (eapply default_none_list_inv; [eassumption | exact Hl]).
Qed.

(** X7.  The bounds of an instance hold throughout a decoded message:
    every entry of [instances] has a priority from 0 up to 999999 and a
    positive number of instances. *)
Theorem desired_status_instances_bounded :
  forall (d : dict) (m : AosDesiredStatus) (l : list AosDesiredInstanceInfo),
    decode_AosDesiredStatus (JObj d) = Ok m ->
    instances m = Some l ->
    Forall (fun r => 0 <= priority r < 1000000 /\ 0 < num_instances r) l.
Proof.
  intros d m l H Hl. unfold decode_AosDesiredStatus in H. simpl in H.
  fields_inv H. subst. simpl in Hl. subst.
  match goal with
  | Hf : default_none "instances" _ _ = Ok _ |- _ =>
      apply default_none_list_items in Hf;
      eapply Forall_impl; [|exact Hf]
  end.
  intros r (v & Hv). eauto using decode_AosDesiredInstanceInfo_ok_bounds.
Qed.

(** X9.  A schedule rule that came through a decoded message, as the FOTA
    or the SOTA schedule, has one of the three types, and each item of its
    timetable, when it has one, has at least one time slot. *)
Theorem desired_status_schedules_well_formed :
  forall (d : dict) (m : AosDesiredStatus) (rule : AosScheduleRule),
    decode_AosDesiredStatus (JObj d) = Ok m ->
    fota_schedule m = Some rule \/ sota_schedule m = Some rule ->
    In (sr_type rule) schedule_types /\
    forall items, timetable rule = Some items ->
      Forall (fun it => time_slots it <> []) items.
Proof.
  intros d m rule H Hrule. unfold decode_AosDesiredStatus in H. simpl in H.
  fields_inv H. subst. simpl in Hrule.
  destruct Hrule as [-> | ->];
    match goal with
    | Hf : default_none _ decode_AosScheduleRule _ = Ok (Some rule) |- _ =>
        apply default_none_ok_inv in Hf;
        destruct Hf as [[_ E] | (v & r & _ & Hv & E)]; [discriminate|];
        injection E as <-; eauto using decode_AosScheduleRule_ok_inv
    end.
Qed.

Lemma instance_priority_error di p :
  lookup "priority" di = Some (JInt p) ->
  (1000000 <= p ->
     In (mkError [LKey "priority"] "less_than")
        (errors (decode_AosDesiredInstanceInfo (JObj di)))) /\
  (p < 0 ->
     In (mkError [LKey "priority"] "greater_than_equal")
        (errors (decode_AosDesiredInstanceInfo (JObj di)))).
Proof.
  intros Hp. unfold decode_AosDesiredInstanceInfo. simpl.
  rewrite !errors_ap, (required_present _ _ _ _ Hp), validate_priority_int.
  split; intros Hbad.
  - replace (p <? 1000000) with false by (symmetry; apply Z.ltb_ge; lia).
    simpl. find_error.
  - replace (p <? 1000000) with true by (symmetry; apply Z.ltb_lt; lia).
    replace (0 <=? p) with false by (symmetry; apply Z.leb_gt; lia).
    simpl. find_error.
Qed.

Lemma desired_status_instances_error d vs i v e :
  lookup "instances" d = Some (JArr vs) ->
  nth_error vs i = Some v ->
  In e (errors (decode_AosDesiredInstanceInfo v)) ->
  In (push_loc (LKey "instances") (push_loc (LIdx i) e))
     (errors (decode_AosDesiredStatus (JObj d))).
Proof.
  intros Hl Hnth He.
  pose proof (default_none_error "instances"
                (validate_list 0 decode_AosDesiredInstanceInfo) d _ _ Hl
                (validate_list_error_at 0 _ vs i v e Hnth He)) as H.
  unfold decode_AosDesiredStatus. simpl. rewrite !errors_ap. find_error.
Qed.

(** X8.  Decoding is all or nothing, and an error says where it is.  If the
    item at index [i] of [instances] has an integer priority outside the
    range, the whole message fails, and the errors include one located at
    [instances], [i], [priority]: [less_than] above the range,
    [greater_than_equal] below it. *)
Theorem desired_status_instance_error_located :
  forall (d : dict) (vs : list json) (i : nat) (di : dict) (p : Z),
    lookup "instances" d = Some (JArr vs) ->
    nth_error vs i = Some (JObj di) ->
    lookup "priority" di = Some (JInt p) ->
    (1000000 <= p ->
       is_ok (decode_AosDesiredStatus (JObj d)) = false /\
       In (mkError [LKey "instances"; LIdx i; LKey "priority"] "less_than")
          (errors (decode_AosDesiredStatus (JObj d)))) /\
    (p < 0 ->
       is_ok (decode_AosDesiredStatus (JObj d)) = false /\
       In (mkError [LKey "instances"; LIdx i; LKey "priority"]
             "greater_than_equal")
          (errors (decode_AosDesiredStatus (JObj d)))).
Proof.
  intros d vs i di p Hl Hnth Hp.
  destruct (instance_priority_error di p Hp) as [Hhigh Hlow].
  split; intros Hbad.
  - assert (He := desired_status_instances_error d vs i _ _ Hl Hnth (Hhigh Hbad)).
    split; [eapply in_errors_not_ok|]; exact He.
  - assert (He := desired_status_instances_error d vs i _ _ Hl Hnth (Hlow Hbad)).
    split; [eapply in_errors_not_ok|]; exact He.
Qed.

(** X10.  The two schedule fields take an object and nothing else: any
    other JSON value there, [null] included, is refused with [model_type]
    located at the field. *)
Theorem desired_status_schedule_must_be_object :
  forall (d : dict) (alias : string) (v : json),
    alias = "fotaSchedule" \/ alias = "sotaSchedule" ->
    lookup alias d = Some v ->
    (forall members, v <> JObj members) ->
    is_ok (decode_AosDesiredStatus (JObj d)) = false /\
    In (mkError [LKey alias] "model_type")
       (errors (decode_AosDesiredStatus (JObj d))).
Proof.
  intros d alias v Halias Hl Hv.
  assert (He : In (err "model_type") (errors (decode_AosScheduleRule v))).
  { destruct v; try (now left). exfalso. now apply (Hv members). }
  pose proof (default_none_error alias decode_AosScheduleRule d v _ Hl He) as H.
  assert (Hin : In (mkError [LKey alias] "model_type")
                  (errors (decode_AosDesiredStatus (JObj d)))).
  { unfold decode_AosDesiredStatus. simpl. rewrite !errors_ap.
    destruct Halias as [-> | ->]; find_error. }
  split; [eapply in_errors_not_ok|]; exact Hin.
Qed.

(** X11.  A certificate chain is taken with whatever fingerprints it
    lists, none included; nothing relates them to the certificates of the
    message, which may be absent altogether. *)
Theorem certificate_chain_not_cross_checked :
  forall (name : string) (fingerprints : list string),
    decode_AosCertificateChainInfo
      (JObj [("name", JStr name);
             ("fingerprints", JArr (map JStr fingerprints))])
      = Ok (mkAosCertificateChainInfo name fingerprints) /\
    decode_AosDesiredStatus
      (desired_with "certificateChains"
         (JArr [JObj [("name", JStr name);
                      ("fingerprints", JArr (map JStr fingerprints))]]))
      = Ok (mkAosDesiredStatus "desiredStatus" None None None None None None
              None None None
              (Some [mkAosCertificateChainInfo name fingerprints])).
Proof.
  intros name fingerprints.
  assert (Hchain : decode_AosCertificateChainInfo
            (JObj [("name", JStr name);
                   ("fingerprints", JArr (map JStr fingerprints))])
            = Ok (mkAosCertificateChainInfo name fingerprints)).
  { unfold decode_AosCertificateChainInfo, required, validate_list. simpl.
    rewrite validate_items_strings. reflexivity. }
  split; [exact Hchain|].
  unfold decode_AosDesiredStatus, desired_with, default_none, with_default,
    validate_list.
  cbn [as_dict bind lookup String.eqb Ascii.eqb Bool.eqb required at_loc rmap ap
       validate_literal existsb orb validate_items].
  rewrite Hchain. reflexivity.
Qed.

(** X12.  The labels of an instance.  Left out, they decode to [None]; given
    as a list of strings, the empty list included, they decode to that
    list; an item that is not a string is refused with [string_type]
    located at [labels] and its index. *)
Theorem instance_labels :
  forall d : dict,
    (forall r, lookup "labels" d = None ->
       decode_AosDesiredInstanceInfo (JObj d) = Ok r -> labels r = None) /\
    (forall r ls, lookup "labels" d = Some (JArr (map JStr ls)) ->
       decode_AosDesiredInstanceInfo (JObj d) = Ok r -> labels r = Some ls) /\
    (forall vs i v, lookup "labels" d = Some (JArr vs) ->
       nth_error vs i = Some v ->
       (forall s, v <> JStr s) ->
       In (mkError [LKey "labels"; LIdx i] "string_type")
          (errors (decode_AosDesiredInstanceInfo (JObj d)))).
Proof.
  intros d. unfold decode_AosDesiredInstanceInfo. simpl. split; [|split].
  - intros r Hnone H. fields_inv H. subst. simpl.
    apply default_none_ok_inv in Hfield.
    destruct Hfield as [[_ ->] | (v & l & Hv & _)]; congruence.
  - intros r ls Hl H. fields_inv H. subst. simpl.
    apply default_none_ok_inv in Hfield.
    destruct Hfield as [[Hnone _] | (v & l & Hv & Hval & ->)]; [congruence|].
    rewrite Hl in Hv. injection Hv as <-.
    unfold validate_list in Hval. rewrite validate_items_strings in Hval.
    simpl in Hval. congruence.
  - intros vs i v Hl Hnth Hv.
    assert (He : In (err "string_type") (errors (validate_str v))).
    { destruct v; try (now left). exfalso. now apply (Hv s). }
    pose proof (default_none_error "labels" (validate_list 0 validate_str)
                  d _ _ Hl (validate_list_error_at 0 _ vs i v _ Hnth He)) as H.
    rewrite !errors_ap. find_error.
Qed.

End DesiredMore.

(* ================================================================== *)
(** * More on state messages *)
(* ================================================================== *)

Lemma check_str_length_ok_inv lo hi s t :
  check_str_length lo hi s = Ok t ->
  t = s /\ (lo <= String.length s)%nat /\
  (forall m, hi = Some m -> (String.length s <= m)%nat).
Proof.
  unfold check_str_length.
  destruct (String.length s <? lo)%nat eqn:E1; [discriminate|].
  apply Nat.ltb_ge in E1. destruct hi as [m|].
  - destruct (m <? String.length s)%nat eqn:E2; [discriminate|].
    apply Nat.ltb_ge in E2. intros H. injection H as <-.
    repeat split; auto. intros m' E. injection E as <-. exact E2.
  - intros H. injection H as <-. repeat split; auto. discriminate.
Qed.

Section StateMore.
Context {lb : LaxBool} {ut : UnitTypes}.

Lemma validate_checksum_ok_inv v s :
  validate_checksum v = Ok s ->
  v = JStr s /\ (1 <= String.length s <= DATA_LENGTH_256)%nat.
Proof.
  unfold validate_checksum. intros H.
  apply bind_ok_inv in H. destruct H as (t & Ht & H).
  destruct v as [| | | | s0 | |]; try discriminate. injection Ht as <-.
  apply check_str_length_ok_inv in H. destruct H as (-> & Hlo & Hhi).
  split; [reflexivity|]. split; [exact Hlo | now apply Hhi].
Qed.

Lemma validate_checksum_str s :
  validate_checksum (JStr s) =
    if (String.length s <? 1)%nat then fail "string_too_short"
    else if (DATA_LENGTH_256 <? String.length s)%nat then fail "string_too_long"
    else Ok s.
Proof. reflexivity. Qed.

Lemma validate_state_str s : validate_state (JStr s) = Ok s.
Proof. reflexivity. Qed.

Lemma decode_state_fields_ok_inv tag d r :
  decode_state_fields tag d = Ok r ->
  ns_message_type r = tag /\
  lookup "messageType" d = Some (JStr tag) /\
  lookup "stateChecksum" d = Some (JStr (checksum r)) /\
  (1 <= String.length (checksum r) <= DATA_LENGTH_256)%nat /\
  lookup "state" d = Some (JStr (state r)).
Proof.
  unfold decode_state_fields. intros H. fields_inv H. subst. simpl.
  apply required_ok_inv in Hfield4. destruct Hfield4 as (v & Hl & Hv).
  apply validate_literal_ok_inv in Hv. destruct Hv as [-> [<- | []]].
  apply required_ok_inv in Hfield0. destruct Hfield0 as (v0 & Hl0 & Hv0).
  apply validate_checksum_ok_inv in Hv0. destruct Hv0 as [-> Hlen].
  apply required_ok_inv in Hfield. destruct Hfield as (v1 & Hl1 & Hv1).
  unfold validate_state in Hv1. apply bind_ok_inv in Hv1.
  destruct Hv1 as (t & Ht & Hv1).
  destruct v1 as [| | | | s1 | |]; try discriminate. injection Ht as <-.
  apply check_str_length_ok_inv in Hv1. destruct Hv1 as (-> & _).
  auto.
Qed.

(** X2.  The state checksum of [AosNewState] and [AosUpdateState].  A
    decoded message carries, as its checksum, the string found under
    [stateChecksum], of length 1 up to [DATA_LENGTH_256], and as its state
    the string found under [state].  An empty checksum is refused with
    [string_too_short] and one longer than [DATA_LENGTH_256] with
    [string_too_long], both located at [stateChecksum]. *)
Theorem state_checksum_bounds :
  forall d : dict,
    (forall r, decode_AosNewState (JObj d) = Ok r \/
               decode_AosUpdateState (JObj d) = Ok r ->
       lookup "stateChecksum" d = Some (JStr (checksum r)) /\
       (1 <= String.length (checksum r) <= DATA_LENGTH_256)%nat /\
       lookup "state" d = Some (JStr (state r))) /\
    (lookup "stateChecksum" d = Some (JStr "") ->
       In (mkError [LKey "stateChecksum"] "string_too_short")
          (errors (decode_AosNewState (JObj d))) /\
       In (mkError [LKey "stateChecksum"] "string_too_short")
          (errors (decode_AosUpdateState (JObj d)))) /\
    (forall s, lookup "stateChecksum" d = Some (JStr s) ->
       (DATA_LENGTH_256 < String.length s)%nat ->
       In (mkError [LKey "stateChecksum"] "string_too_long")
          (errors (decode_AosNewState (JObj d))) /\
       In (mkError [LKey "stateChecksum"] "string_too_long")
          (errors (decode_AosUpdateState (JObj d)))).
Proof.
  intros d. unfold decode_AosNewState, decode_AosUpdateState. simpl.
  split; [|split].
  - intros r [H | H]; apply decode_state_fields_ok_inv in H; tauto.
  - intros Hl. unfold decode_state_fields.
    rewrite !errors_ap, (required_present _ _ _ _ Hl). simpl.
    split; find_error.
  - intros s Hl Hlong. unfold decode_state_fields.
    rewrite !errors_ap, (required_present _ _ _ _ Hl), validate_checksum_str.
    replace (String.length s <? 1)%nat with false
      by (symmetry; apply Nat.ltb_ge; lia).
    replace (DATA_LENGTH_256 <? String.length s)%nat with true
      by (symmetry; apply Nat.ltb_lt; lia).
    simpl. split; find_error.
Qed.

Lemma decode_AosStateAcceptance_ok_inv d r :
  decode_AosStateAcceptance (JObj d) = Ok r ->
  lookup "messageType" d = Some (JStr "stateAcceptance") /\
  In (sa_result r) acceptance_results /\
  lookup "result" d = Some (JStr (sa_result r)) /\
  lookup "checksum" d = Some (JStr (sa_checksum r)) /\
  (1 <= String.length (sa_checksum r) <= DATA_LENGTH_256)%nat.
Proof.
  unfold decode_AosStateAcceptance. simpl. intros H. fields_inv H. subst. simpl.
  apply required_ok_inv in Hfield5. destruct Hfield5 as (v & Hl & Hv).
  apply validate_literal_ok_inv in Hv. destruct Hv as [-> [<- | []]].
  apply required_ok_inv in Hfield1. destruct Hfield1 as (v1 & Hl1 & Hv1).
  apply validate_checksum_ok_inv in Hv1. destruct Hv1 as [-> Hlen].
  apply required_ok_inv in Hfield0. destruct Hfield0 as (v0 & Hl0 & Hv0).
  apply validate_literal_ok_inv in Hv0. destruct Hv0 as [-> Hin].
  auto.
Qed.

(** X3.  [AosStateAcceptance].  A decoded acceptance has result
    ["accepted"] or ["rejected"], the one the input carried, and a checksum
    of length 1 up to [DATA_LENGTH_256] read from the key [checksum]; any
    other value under [result] is refused with [literal_error] located at
    [result]; and a body that carries its checksum under [stateChecksum]
    only, as a [newState] does, is refused with [checksum] missing. *)
Theorem state_acceptance_constraints :
  forall d : dict,
    (forall r, decode_AosStateAcceptance (JObj d) = Ok r ->
       (sa_result r = "accepted" \/ sa_result r = "rejected") /\
       lookup "result" d = Some (JStr (sa_result r)) /\
       lookup "checksum" d = Some (JStr (sa_checksum r)) /\
       (1 <= String.length (sa_checksum r) <= DATA_LENGTH_256)%nat) /\
    (forall v, lookup "result" d = Some v ->
       v <> JStr "accepted" -> v <> JStr "rejected" ->
       In (mkError [LKey "result"] "literal_error")
          (errors (decode_AosStateAcceptance (JObj d)))) /\
    (lookup "checksum" d = None ->
       In (mkError [LKey "checksum"] "missing")
          (errors (decode_AosStateAcceptance (JObj d)))).
Proof.
  intros d. split; [|split].
  - intros r H. apply decode_AosStateAcceptance_ok_inv in H.
    destruct H as (_ & Hin & Hl & Hc & Hlen).
    repeat split; auto; try lia.
    destruct Hin as [<- | [<- | []]]; auto.
  - intros v Hl H1 H2. unfold decode_AosStateAcceptance. simpl.
    rewrite !errors_ap, (required_present _ _ _ _ Hl).
    rewrite validate_literal_not_member
      by (intros s [<- | [<- | []]]; assumption).
    simpl. find_error.
  - intros Hnone. unfold decode_AosStateAcceptance. simpl.
    rewrite !errors_ap, (required_absent _ _ _ Hnone). find_error.
Qed.

Lemma decode_AosStateRequest_ok_inv d r :
  decode_AosStateRequest (JObj d) = Ok r ->
  lookup "messageType" d = Some (JStr "stateRequest") /\
  exists v, lookup "default" d = Some v /\ validate_bool v = Ok (sq_default r).
Proof.
  unfold decode_AosStateRequest. simpl. intros H. fields_inv H. subst. simpl.
  apply required_ok_inv in Hfield3. destruct Hfield3 as (v & Hl & Hv).
  apply validate_literal_ok_inv in Hv. destruct Hv as [-> [<- | []]].
  apply required_ok_inv in Hfield. destruct Hfield as (v0 & Hl0 & Hv0).
  eauto.
Qed.

(** X4.  [AosStateRequest].  The flag [default] has no default: without
    the key the request is refused with [default] missing.  A JSON boolean
    under it is kept as it is, and [null], a list or an object there is
    refused with [bool_type]. *)
Theorem state_request_default_flag :
  forall d : dict,
    (lookup "default" d = None ->
       In (mkError [LKey "default"] "missing")
          (errors (decode_AosStateRequest (JObj d)))) /\
    (forall b r, lookup "default" d = Some (JBool b) ->
       decode_AosStateRequest (JObj d) = Ok r -> sq_default r = b) /\
    (forall b sid subj inst,
       lookup "default" d = Some (JBool b) ->
       lookup "messageType" d = Some (JStr "stateRequest") ->
       TypeServiceServiceIdMandatory "service_id" d = Ok sid ->
       TypeSubjectSubjectIdMandatory "subject_id" d = Ok subj ->
       TypeInstanceNoMandatory "instance" d = Ok inst ->
       decode_AosStateRequest (JObj d)
         = Ok (mkAosStateRequest "stateRequest" sid subj inst b)) /\
    (forall v, lookup "default" d = Some v ->
       v = JNull \/ (exists l, v = JArr l) \/ (exists m, v = JObj m) ->
       In (mkError [LKey "default"] "bool_type")
          (errors (decode_AosStateRequest (JObj d)))).
Proof.
  intros d. split; [|split; [|split]].
  - intros Hnone. unfold decode_AosStateRequest. simpl.
    rewrite !errors_ap, (required_absent _ _ _ Hnone). find_error.
  - intros b r Hl H. apply decode_AosStateRequest_ok_inv in H.
    destruct H as (_ & v & Hv & Hb). rewrite Hl in Hv. injection Hv as <-.
    simpl in Hb. congruence.
  - intros b sid subj inst Hl Hmt Hsid Hsubj Hinst.
    unfold decode_AosStateRequest. simpl.
    rewrite Hsid, Hsubj, Hinst.
    rewrite (required_present _ _ _ _ Hmt), (required_present _ _ _ _ Hl).
    reflexivity.
  - intros v Hl Hv. unfold decode_AosStateRequest. simpl.
    rewrite !errors_ap, (required_present _ _ _ _ Hl).
    destruct Hv as [-> | [(l & ->) | (m & ->)]]; simpl; find_error.
Qed.

End StateMore.

Section Dispatch.
Context {lib : Library} {lb : LaxBool} {ut : UnitTypes}.

Lemma decode_AosDesiredStatus_tag d m :
  decode_AosDesiredStatus (JObj d) = Ok m ->
  lookup "messageType" d = Some (JStr "desiredStatus").
Proof.
  unfold decode_AosDesiredStatus. simpl. intros H. fields_inv H.
  match goal with
  | Hf : required "messageType" _ _ = Ok _ |- _ =>
      apply required_ok_inv in Hf; destruct Hf as (v & Hl & Hv);
      apply validate_literal_ok_inv in Hv; destruct Hv as [-> [<- | []]]
  end.
  exact Hl.
Qed.

Lemma is_ok_true_inv {A} (r : result A) : is_ok r = true -> exists a, r = Ok a.
Proof. destruct r as [a|]; [eauto | discriminate]. Qed.

(** X1.  The discriminator decides the class.  Each of the five message
    classes decodes an object only if [messageType] is its own tag, so no
    object decodes as two different classes. *)
Theorem message_type_selects_one_class :
  forall d : dict,
    (is_ok (decode_AosDesiredStatus (JObj d)) = true ->
       lookup "messageType" d = Some (JStr "desiredStatus")) /\
    (is_ok (decode_AosNewState (JObj d)) = true ->
       lookup "messageType" d = Some (JStr "newState")) /\
    (is_ok (decode_AosUpdateState (JObj d)) = true ->
       lookup "messageType" d = Some (JStr "updateState")) /\
    (is_ok (decode_AosStateAcceptance (JObj d)) = true ->
       lookup "messageType" d = Some (JStr "stateAcceptance")) /\
    (is_ok (decode_AosStateRequest (JObj d)) = true ->
       lookup "messageType" d = Some (JStr "stateRequest")) /\
    (Nat.b2n (is_ok (decode_AosDesiredStatus (JObj d)))
     + Nat.b2n (is_ok (decode_AosNewState (JObj d)))
     + Nat.b2n (is_ok (decode_AosUpdateState (JObj d)))
     + Nat.b2n (is_ok (decode_AosStateAcceptance (JObj d)))
     + Nat.b2n (is_ok (decode_AosStateRequest (JObj d))) <= 1)%nat.
Proof.
  intros d.
  assert (H1 : is_ok (decode_AosDesiredStatus (JObj d)) = true ->
               lookup "messageType" d = Some (JStr "desiredStatus")).
  { intros H. apply is_ok_true_inv in H. destruct H as (m & H).
    eauto using decode_AosDesiredStatus_tag. }
  assert (H2 : is_ok (decode_AosNewState (JObj d)) = true ->
               lookup "messageType" d = Some (JStr "newState")).
  { intros H. apply is_ok_true_inv in H. destruct H as (m & H).
    apply decode_state_fields_ok_inv in H. tauto. }
  assert (H3 : is_ok (decode_AosUpdateState (JObj d)) = true ->
               lookup "messageType" d = Some (JStr "updateState")).
  { intros H. apply is_ok_true_inv in H. destruct H as (m & H).
    apply decode_state_fields_ok_inv in H. tauto. }
  assert (H4 : is_ok (decode_AosStateAcceptance (JObj d)) = true ->
               lookup "messageType" d = Some (JStr "stateAcceptance")).
  { intros H. apply is_ok_true_inv in H. destruct H as (m & H).
    apply decode_AosStateAcceptance_ok_inv in H. tauto. }
  assert (H5 : is_ok (decode_AosStateRequest (JObj d)) = true ->
               lookup "messageType" d = Some (JStr "stateRequest")).
  { intros H. apply is_ok_true_inv in H. destruct H as (m & H).
    apply decode_AosStateRequest_ok_inv in H. tauto. }
  repeat (split; [assumption|]).
  destruct (is_ok (decode_AosDesiredStatus (JObj d)));
  destruct (is_ok (decode_AosNewState (JObj d)));
  destruct (is_ok (decode_AosUpdateState (JObj d)));
  destruct (is_ok (decode_AosStateAcceptance (JObj d)));
  destruct (is_ok (decode_AosStateRequest (JObj d)));
  simpl; try lia;
  repeat match goal with
  | H : true = true -> _ |- _ => specialize (H eq_refl)
  end; congruence.
Qed.

End Dispatch.

(* ================================================================== *)
(** * More on decryption descriptors *)
(* ================================================================== *)

Lemma b64encode_length bs :
  List.length (b64encode bs) = (4 * ((List.length bs + 2) / 3))%nat.
Proof.
  induction bs as [| x | x y | x y z rest IH] using bytes_ind3;
    try reflexivity.
  cbn [b64encode List.length]. rewrite IH.
  replace (S (S (S (List.length rest))) + 2)%nat
    with (List.length rest + 2 + 1 * 3)%nat by lia.
  rewrite Nat.div_add by lia. lia.
Qed.

Lemma b64_char_in_alphabet n : 0 <= n < 64 -> In (b64_char n) b64_alphabet.
Proof.
  intros Hn. unfold b64_char. apply nth_In.
  change (List.length b64_alphabet) with 64%nat. lia.
Qed.

Ltac b64_letters :=
  repeat (apply Forall_cons;
          [ lazymatch goal with
            | |- b64_letter (b64_char _) =>
                left; apply b64_char_in_alphabet; sextet_range
            | |- b64_letter b64_pad => right; reflexivity
            end
          | ]).

Lemma b64encode_letters bs : Forall b64_letter (b64encode bs).
Proof.
  induction bs as [| x | x y | x y z rest IH] using bytes_ind3.
  - apply Forall_nil.
  - pose proof (byte_val_range x). cbn [b64encode].
    b64_letters. apply Forall_nil.
  - pose proof (byte_val_range x). pose proof (byte_val_range y).
    cbn [b64encode]. b64_letters. apply Forall_nil.
  - pose proof (byte_val_range x). pose proof (byte_val_range y).
    pose proof (byte_val_range z). cbn [b64encode].
    b64_letters. exact IH.
Qed.

Section DecryptionMore.
Context {lib : Library} {ut : UnitTypes}.

(** X15.  [dump_secret] loses nothing and writes plain text.  Two sensitive
    values with the same dump hold the same bytes; the dump of [n] bytes
    has four letters for every three bytes, the last group padded, and every
    letter is from the base64 alphabet or is the padding. *)
Theorem dump_secret_injective_and_shaped :
  forall s1 s2 : AosSensitiveBytes,
    (dump_secret s1 = dump_secret s2 -> s1 = s2) /\
    List.length (dump_secret s1)
      = (4 * ((List.length (get_secret_value s1) + 2) / 3))%nat /\
    Forall b64_letter (dump_secret s1).
Proof.
  intros [b1] [b2]. unfold dump_secret. simpl. split; [|split].
  - intros H. apply (f_equal b64decode) in H.
    rewrite !b64decode_b64encode in H. congruence.
  - apply b64encode_length.
  - apply b64encode_letters.
Qed.

Lemma decode_AosDecryptionInfo_fields_algs d r :
  decode_AosDecryptionInfo (JObj d) = Ok r ->
  block_alg r = "AES256/CBC/pkcs7" /\
  (asym_alg r = "RSA/PKCS1v1_5" \/ asym_alg r = "RSA/PSS") /\
  (lookup "asymAlg" d = None -> asym_alg r = "RSA/PKCS1v1_5").
Proof.
  unfold decode_AosDecryptionInfo. simpl.
  intros H. fields_inv H. subst. simpl.
  unfold with_default in Hfield3, Hfield0.
  split; [|split].
  - destruct (lookup "blockAlg" d) as [v|].
    + apply at_loc_ok_inv, validate_literal_ok_inv in Hfield3.
      destruct Hfield3 as [_ [<- | []]]. reflexivity.
    + congruence.
  - destruct (lookup "asymAlg" d) as [v|].
    + apply at_loc_ok_inv, validate_literal_ok_inv in Hfield0.
      destruct Hfield0 as [_ [<- | [<- | []]]]; auto.
    + left. congruence.
  - intros Hnone. rewrite Hnone in Hfield0. congruence.
Qed.

Lemma decode_AosDecryptionInfo_ok_algs v r :
  decode_AosDecryptionInfo v = Ok r ->
  block_alg r = "AES256/CBC/pkcs7" /\
  (asym_alg r = "RSA/PKCS1v1_5" \/ asym_alg r = "RSA/PSS").
Proof.
  destruct v as [| | | | | | d]; try discriminate.
  intros H. apply decode_AosDecryptionInfo_fields_algs in H. tauto.
Qed.

(** X13.  The algorithms of a decoded [AosDecryptionInfo].  The block
    algorithm is always ["AES256/CBC/pkcs7"] and the asymmetric one is
    ["RSA/PKCS1v1_5"] or ["RSA/PSS"]; with [asymAlg] left out it is
    ["RSA/PKCS1v1_5"]; another value under [blockAlg] or [asymAlg] is
    refused with [literal_error] located there. *)
Theorem decryption_info_algorithms :
  forall d : dict,
    (forall r, decode_AosDecryptionInfo (JObj d) = Ok r ->
       block_alg r = "AES256/CBC/pkcs7" /\
       (asym_alg r = "RSA/PKCS1v1_5" \/ asym_alg r = "RSA/PSS") /\
       (lookup "asymAlg" d = None -> asym_alg r = "RSA/PKCS1v1_5")) /\
    (forall v, lookup "blockAlg" d = Some v -> v <> JStr "AES256/CBC/pkcs7" ->
       In (mkError [LKey "blockAlg"] "literal_error")
          (errors (decode_AosDecryptionInfo (JObj d)))) /\
    (forall v, lookup "asymAlg" d = Some v ->
       v <> JStr "RSA/PKCS1v1_5" -> v <> JStr "RSA/PSS" ->
       In (mkError [LKey "asymAlg"] "literal_error")
          (errors (decode_AosDecryptionInfo (JObj d)))).
Proof.
  intros d. split; [|split].
  - intros r H. now apply decode_AosDecryptionInfo_fields_algs.
  - intros v Hl Hne. unfold decode_AosDecryptionInfo. simpl.
    rewrite !errors_ap, errors_rmap, (with_default_present _ _ _ _ _ Hl).
    rewrite validate_literal_not_member by (intros s [<- | []]; assumption).
    simpl. find_error.
  - intros v Hl H1 H2. unfold decode_AosDecryptionInfo. simpl.
    rewrite !errors_ap, (with_default_present _ _ _ _ _ Hl).
    rewrite validate_literal_not_member
      by (intros s [<- | [<- | []]]; assumption).
    simpl. find_error.
Qed.

(** X16.  The wire form of a descriptor is the dump by alias.  Dumped
    under the attribute names, a descriptor does not decode: the three
    required fields are read under their aliases and are reported missing.
    Dumped by alias it decodes back to the same record, provided the record
    holds declared algorithms and the imported validators read back what is
    dumped: base64 text for a sensitive value, and for [Base64Bytes] its own
    dump. *)
Theorem decryption_info_dump_decode :
  forall r : AosDecryptionInfo,
    decode_AosDecryptionInfo (dump_json_AosDecryptionInfo false r)
      = Err [mkError [LKey "blockIv"] "missing";
             mkError [LKey "blockKey"] "missing";
             mkError [LKey "receiverInfo"] "missing"] /\
    (block_alg r = "AES256/CBC/pkcs7" ->
     asym_alg r = "RSA/PKCS1v1_5" \/ asym_alg r = "RSA/PSS" ->
     (forall b, validate_AosSensitiveBytes (ser_json_bytes (b64encode b))
                = Ok (mkSensitive b)) ->
     (forall b, validate_Base64Bytes (dump_Base64Bytes b) = Ok b) ->
     decode_AosDecryptionInfo (dump_json_AosDecryptionInfo true r) = Ok r).
Proof.
  intros [alg [iv] [key] asym [serial issuer]]. split; [reflexivity|].
  simpl. intros -> Hasym Hsens Hb64.
  unfold decode_AosDecryptionInfo, dump_json_AosDecryptionInfo, dump_secret,
    decode_AosReceiverInfo, dump_json_AosReceiverInfo, required, with_default.
  simpl. rewrite !Hsens, Hb64.
  destruct Hasym as [-> | ->]; reflexivity.
Qed.

Ltac payload_algs field :=
  match goal with
  | Hf : default_none field _ _ = Ok (Some _) |- _ =>
      apply default_none_list_items in Hf;
      eapply Forall_impl; [|exact Hf]
  end;
  let x := fresh "x" in
  let v := fresh "v" in
  let Hv := fresh "Hv" in
  let dd := fresh "dd" in
  intros x (v & Hv);
  apply bind_ok_inv in Hv; destruct Hv as (dd & _ & Hv); cbv beta in Hv;
  fields_inv Hv; subst; simpl;
  match goal with
  | Hd : required "decryptionInfo" _ _ = Ok _ |- _ =>
      apply required_ok_inv in Hd; destruct Hd as (? & _ & Hd);
      exact (decode_AosDecryptionInfo_ok_algs _ _ Hd)
  end.

(** X14.  Every component, layer and service of a decoded message comes
    with a decryption descriptor whose algorithms are declared ones. *)
Theorem desired_status_payload_algorithms :
  forall (d : dict) (m : AosDesiredStatus),
    decode_AosDesiredStatus (JObj d) = Ok m ->
    (forall l, components m = Some l ->
       Forall (fun c => declared_algorithms (dc_decryption_info c)) l) /\
    (forall l, layers m = Some l ->
       Forall (fun c => declared_algorithms (dl_decryption_info c)) l) /\
    (forall l, services m = Some l ->
       Forall (fun c => declared_algorithms (ds_decryption_info c)) l).
Proof.
  intros d m H. unfold decode_AosDesiredStatus in H. simpl in H.
  fields_inv H. subst. simpl. unfold declared_algorithms.
  split; [|split]; intros l ->.
  - payload_algs "components".
  - payload_algs "layers".
  - payload_algs "services".
Qed.

End DecryptionMore.

(* ================================================================== *)
(** * The added properties on examples *)
(* ================================================================== *)

Lemma sample_message_decodes :
  decode_AosDesiredStatus (lib := Sample.lib) (ut := Sample.ut)
    (JObj Sample.message) = Ok Sample.decoded_message.
Proof. reflexivity. Defined.

Lemma desired_status_ignores_unknown_members_witness :
  ~ In "comment" desired_aliases /\
  decode_AosDesiredStatus (lib := Sample.lib) (ut := Sample.ut)
    (JObj ([("messageType", JStr "desiredStatus")]
           ++ ("comment", JNull) :: [("nodes", JArr [])])%list)
  = decode_AosDesiredStatus (lib := Sample.lib) (ut := Sample.ut)
      (JObj ([("messageType", JStr "desiredStatus")]
             ++ [("nodes", JArr [])])%list).
Proof.
  assert (H : ~ In "comment" desired_aliases).
  { unfold desired_aliases. simpl. intuition discriminate. }
  split; [exact H|].
  apply (desired_status_ignores_unknown_members (lib := Sample.lib)
           (ut := Sample.ut)).
  exact H.
Defined.

Lemma desired_status_lists_elementwise_witness :
  exists l,
    instances Sample.decoded_message = Some l /\
    Forall2 (fun v a => decode_AosDesiredInstanceInfo (lib := Sample.lib)
                          (ut := Sample.ut) v = Ok a)
      [Sample.instance 1; Sample.instance 999999] l.
Proof.
  apply (proj1 (proj2 (proj2 (proj2 (proj2
           (desired_status_lists_elementwise (lib := Sample.lib)
              (ut := Sample.ut) Sample.message Sample.decoded_message
              sample_message_decodes)))))).
  reflexivity.
Defined.

Lemma desired_status_instances_bounded_witness :
  Forall (fun r => 0 <= priority r < 1000000 /\ 0 < num_instances r)
    [mkAosDesiredInstanceInfo (ut := Sample.ut) "navigation" "driver" 1 1 None;
     mkAosDesiredInstanceInfo (ut := Sample.ut)
       "navigation" "driver" 999999 1 None].
Proof.
  apply (desired_status_instances_bounded (lib := Sample.lib) (ut := Sample.ut)
           Sample.message Sample.decoded_message _ sample_message_decodes).
  reflexivity.
Defined.

Lemma desired_status_schedules_well_formed_witness :
  In (sr_type Sample.decoded_rule) schedule_types /\
  forall items, timetable Sample.decoded_rule = Some items ->
    Forall (fun it => time_slots it <> []) items.
Proof.
  apply (desired_status_schedules_well_formed (lib := Sample.lib)
           (ut := Sample.ut) Sample.message Sample.decoded_message
           Sample.decoded_rule sample_message_decodes).
  left. reflexivity.
Defined.

Lemma desired_status_instance_error_located_witness :
  In (mkError [LKey "instances"; LIdx 1; LKey "priority"] "less_than")
     (errors (decode_AosDesiredStatus (lib := Sample.lib) (ut := Sample.ut)
                (desired_with "instances"
                   (JArr [Sample.instance 1; Sample.instance 1000000])))).
Proof.
  apply (proj1 (desired_status_instance_error_located (lib := Sample.lib)
           (ut := Sample.ut)
           [("messageType", JStr "desiredStatus");
            ("instances", JArr [Sample.instance 1; Sample.instance 1000000])]
           [Sample.instance 1; Sample.instance 1000000] 1
           (Sample.instance_info [("priority", JInt 1000000)]) 1000000
           eq_refl eq_refl eq_refl)).
  lia.
Defined.

Lemma desired_status_schedule_must_be_object_witness :
  In (mkError [LKey "fotaSchedule"] "model_type")
     (errors (decode_AosDesiredStatus (lib := Sample.lib) (ut := Sample.ut)
                (desired_with "fotaSchedule" JNull))).
Proof.
  apply (desired_status_schedule_must_be_object (lib := Sample.lib)
           (ut := Sample.ut)
           [("messageType", JStr "desiredStatus"); ("fotaSchedule", JNull)]
           "fotaSchedule" JNull);
    [left; reflexivity | reflexivity | discriminate].
Defined.

Lemma instance_labels_witness :
  In (mkError [LKey "labels"; LIdx 1] "string_type")
     (errors (decode_AosDesiredInstanceInfo (lib := Sample.lib) (ut := Sample.ut)
                (JObj (Sample.instance_info
                         [("priority", JInt 1);
                          ("labels", JArr [JStr "gpu"; JInt 3])])))).
Proof.
  apply (proj2 (proj2 (instance_labels (lib := Sample.lib) (ut := Sample.ut)
           (Sample.instance_info
              [("priority", JInt 1); ("labels", JArr [JStr "gpu"; JInt 3])])))
           [JStr "gpu"; JInt 3] 1%nat (JInt 3));
    [reflexivity | reflexivity | discriminate].
Defined.

Lemma desired_status_payload_algorithms_witness :
  Forall (fun c => declared_algorithms (ds_decryption_info c))
    [mkAosDesiredServiceInfo (ut := Sample.ut) "navigation" "maps" "1.0.0"
       ["https://cdn/nav"] "ab12" 1024 Sample.decoded_info].
Proof.
  apply (proj2 (proj2 (desired_status_payload_algorithms (lib := Sample.lib)
           (ut := Sample.ut) Sample.message Sample.decoded_message
           sample_message_decodes))).
  reflexivity.
Defined.

Lemma state_checksum_bounds_witness :
  In (mkError [LKey "stateChecksum"] "string_too_short")
     (errors (decode_AosNewState (ut := Sample.ut)
                (JObj (Sample.state_body
                         [("messageType", JStr "newState");
                          ("stateChecksum", JStr ""); ("state", JStr "")])))).
Proof.
  apply (proj1 (proj1 (proj2 (state_checksum_bounds (ut := Sample.ut)
           (Sample.state_body
              [("messageType", JStr "newState");
               ("stateChecksum", JStr ""); ("state", JStr "")])))
           eq_refl)).
Defined.

Lemma state_acceptance_constraints_witness :
  In (mkError [LKey "result"] "literal_error")
     (errors (decode_AosStateAcceptance (ut := Sample.ut)
                (JObj (Sample.state_body
                         [("messageType", JStr "stateAcceptance");
                          ("checksum", JStr "c0ffee");
                          ("result", JStr "postponed");
                          ("reason", JStr "")])))).
Proof.
  apply (proj1 (proj2 (state_acceptance_constraints (ut := Sample.ut)
           (Sample.state_body
              [("messageType", JStr "stateAcceptance");
               ("checksum", JStr "c0ffee"); ("result", JStr "postponed");
               ("reason", JStr "")]))) (JStr "postponed"));
    [reflexivity | discriminate | discriminate].
Defined.

Lemma state_request_default_flag_witness :
  In (mkError [LKey "default"] "missing")
     (errors (decode_AosStateRequest (lb := Sample.lb) (ut := Sample.ut)
                (JObj (Sample.state_body
                         [("messageType", JStr "stateRequest")])))) /\
  decode_AosStateRequest (lb := Sample.lb) (ut := Sample.ut)
    (JObj (Sample.state_body
             [("messageType", JStr "stateRequest"); ("default", JBool true)]))
  = Ok (mkAosStateRequest (ut := Sample.ut)
          "stateRequest" "navigation" "driver" 0 true).
Proof.
  split.
  - apply (proj1 (state_request_default_flag (lb := Sample.lb) (ut := Sample.ut)
             (Sample.state_body [("messageType", JStr "stateRequest")]))).
    reflexivity.
  - apply (proj1 (proj2 (proj2 (state_request_default_flag (lb := Sample.lb)
             (ut := Sample.ut)
             (Sample.state_body
                [("messageType", JStr "stateRequest");
                 ("default", JBool true)])))));
      reflexivity.
Defined.

Lemma message_type_selects_one_class_witness :
  lookup "messageType" (Sample.state_message "newState")
    = Some (JStr "newState").
Proof.
  apply (proj1 (proj2 (message_type_selects_one_class (lib := Sample.lib)
           (lb := Sample.lb) (ut := Sample.ut)
           (Sample.state_message "newState")))).
  reflexivity.
Defined.

Lemma dump_secret_injective_and_shaped_witness :
  mkSensitive (list_byte_of_string "key") = mkSensitive (list_byte_of_string "key").
Proof.
  apply (proj1 (dump_secret_injective_and_shaped
           (mkSensitive (list_byte_of_string "key"))
           (mkSensitive (list_byte_of_string "key")))).
  reflexivity.
Defined.

Lemma decryption_info_algorithms_witness :
  In (mkError [LKey "asymAlg"] "literal_error")
     (errors (decode_AosDecryptionInfo (lib := Sample.lib) (ut := Sample.ut)
                (JObj [("asymAlg", JStr "RSA/OAEP")]))).
Proof.
  apply (proj2 (proj2 (decryption_info_algorithms (lib := Sample.lib)
           (ut := Sample.ut) [("asymAlg", JStr "RSA/OAEP")]))
           (JStr "RSA/OAEP"));
    [reflexivity | discriminate | discriminate].
Defined.

Lemma decryption_info_dump_decode_witness :
  decode_AosDecryptionInfo (lib := Sample.lib) (ut := Sample.ut)
    (dump_json_AosDecryptionInfo (lib := Sample.lib) true Sample.decoded_info)
  = Ok Sample.decoded_info.
Proof.
  apply (proj2 (decryption_info_dump_decode (lib := Sample.lib)
           (ut := Sample.ut) Sample.decoded_info)).
  - reflexivity.
  - left. reflexivity.
  - intros b. simpl. unfold Sample.validate_b64.
    rewrite list_byte_of_string_of_list_byte, b64decode_b64encode. reflexivity.
  - intros b. simpl. unfold Sample.validate_b64.
    rewrite list_byte_of_string_of_list_byte, b64decode_b64encode. reflexivity.
Defined.
